(** * etcd3-py asynchronous client: tokenizer, stream decoder and RPC call

    A shallow embedding of [etcd3/aio_client.py]:

    - [ResponseIter.next], the brace-counting tokenizer that cuts the
      gateway's undelimited byte stream into frames;
    - [ModelizedStreamResponse], the stream handle ([close], [__aiter__],
      [__anext__]);
    - [AioClient._raise_for_status] and [AioClient.call_rpc].

    The Python runtime pieces the code calls ([str(_, 'utf-8')],
    [json.loads], [dict.get], truthiness, [dict.setdefault]/[update]) and
    the aiohttp response object are modelled first. *)

From Stdlib Require Import ZArith NArith List Bool Ascii String Lia.
From Stdlib.Strings Require Import Byte.
From stdpp Require Import base option gmap strings.
Import ListNotations.

Set Warnings "-register-all".

Local Open Scope N_scope.

(** ** Python text: [str(data, encoding='utf-8')] *)

Module Utf8.

(** A Python [str] is a sequence of code points. *)
Definition str := list N.

Definition in_range (lo hi n : N) : bool := (lo <=? n) && (n <=? hi).

Definition cont (b : byte) : bool := in_range 128 191 (Byte.to_N b).

Definition low6 (b : byte) : N := N.land (Byte.to_N b) 63.

(** Strict UTF-8 decoding: overlong forms, encoded surrogates and code
    points above U+10FFFF are rejected ([None] is [UnicodeDecodeError]). *)
Fixpoint decode (s : list byte) : option str :=
  match s with
  | [] => Some []
  | b0 :: s1 =>
    let n0 := Byte.to_N b0 in
    if n0 <? 128 then option_map (cons n0) (decode s1)
    else if in_range 194 223 n0 then
      match s1 with
      | b1 :: s2 =>
        if cont b1
        then option_map (cons ((n0 - 192) * 64 + low6 b1)) (decode s2)
        else None
      | _ => None
      end
    else if in_range 224 239 n0 then
      match s1 with
      | b1 :: b2 :: s3 =>
        let lo := if n0 =? 224 then 160 else 128 in
        let hi := if n0 =? 237 then 159 else 191 in
        if in_range lo hi (Byte.to_N b1) && cont b2
        then option_map
               (cons ((n0 - 224) * 4096 + low6 b1 * 64 + low6 b2))
               (decode s3)
        else None
      | _ => None
      end
    else if in_range 240 244 n0 then
      match s1 with
      | b1 :: b2 :: b3 :: s4 =>
        let lo := if n0 =? 240 then 144 else 128 in
        let hi := if n0 =? 244 then 143 else 191 in
        if in_range lo hi (Byte.to_N b1) && cont b2 && cont b3
        then option_map
               (cons ((n0 - 240) * 262144 + low6 b1 * 4096
                      + low6 b2 * 64 + low6 b3))
               (decode s4)
        else None
      | _ => None
      end
    else None
  end.

(** A Python string literal of the source, as code points. *)
Definition lit (s : string) : str :=
  map (fun a => N_of_ascii a) (list_ascii_of_string s).

End Utf8.

Abbreviation pystr := Utf8.str.

(** ** Python values produced by [json.loads] *)

Inductive nonfinite := NaN | PosInfinity | NegInfinity.

(** [JFloat neg m e] is the decimal [(-1)^neg * m * 10^e] as written in the
    document; [JNull] is Python's [None]. A [dict] keeps insertion order. *)
Inductive json :=
| JNull
| JBool (b : bool)
| JInt (z : Z)
| JFloat (neg : bool) (mant : N) (exp10 : Z)
| JNonFinite (k : nonfinite)
| JString (s : pystr)
| JArray (l : list json)
| JObject (d : list (pystr * json)).

Module Py.

Definition str_eqb (a b : pystr) : bool := bool_decide (a = b).

(** [d.get(k, dflt)] on a [dict]. *)
Fixpoint dict_get_or (k : pystr) (dflt : json) (d : list (pystr * json))
  : json :=
  match d with
  | [] => dflt
  | (k', v) :: d' => if str_eqb k k' then v else dict_get_or k dflt d'
  end.

(** [d.get(k)]: the bound value, or [None]. *)
Definition dict_get (k : pystr) (d : list (pystr * json)) : json :=
  dict_get_or k JNull d.

(** [k in d]. *)
Fixpoint dict_contains (k : pystr) (d : list (pystr * json)) : bool :=
  match d with
  | [] => false
  | (k', _) :: d' => str_eqb k k' || dict_contains k d'
  end.

(** [d[k] = v]: replaces the value in place, or appends a new binding. *)
Fixpoint dict_set (k : pystr) (v : json) (d : list (pystr * json))
  : list (pystr * json) :=
  match d with
  | [] => [(k, v)]
  | (k', v') :: d' =>
    if str_eqb k k' then (k', v) :: d' else (k', v') :: dict_set k v d'
  end.

(** A decimal that the correctly rounded conversion to a double maps to
    zero: zero mantissa, or magnitude at most [2^-1075]. *)
Definition float_is_zero (mant : N) (exp10 : Z) : bool :=
  (mant =? 0)
  || ((exp10 <? 0)%Z
      && (Z.of_N mant * 2 ^ 1075 <=? 10 ^ (- exp10))%Z).

(** Truth value testing, as in [if v:]. *)
Definition truthy (v : json) : bool :=
  match v with
  | JNull => false
  | JBool b => b
  | JInt z => negb (z =? 0)%Z
  | JFloat _ m e => negb (float_is_zero m e)
  | JNonFinite _ => true
  | JString s => negb (bool_decide (s = []))
  | JArray l => match l with [] => false | _ => true end
  | JObject d => match d with [] => false | _ => true end
  end.

End Py.

(** ** [json.loads] (CPython's scanner, strict mode) *)

Module Json.

Inductive pres (A : Type) :=
| POk (a : A) (rest : pystr)
| PErr            (* JSONDecodeError *)
| PDeep.          (* RecursionError *)
Arguments POk {A} a rest.
Arguments PErr {A}.
Arguments PDeep {A}.

Definition ch (a : ascii) : N := N_of_ascii a.
Definition quote : N := 34.
Definition backslash : N := 92.

Definition is_ws (c : N) : bool :=
  (c =? 32) || (c =? 9) || (c =? 10) || (c =? 13).

Fixpoint skip_ws (s : pystr) : pystr :=
  match s with
  | c :: s' => if is_ws c then skip_ws s' else s
  | [] => []
  end.

Definition is_digit (c : N) : bool := Utf8.in_range 48 57 c.

Fixpoint span_digits (s : pystr) : pystr * pystr :=
  match s with
  | c :: s' =>
    if is_digit c
    then let (ds, r) := span_digits s' in (c :: ds, r)
    else ([], s)
  | [] => ([], [])
  end.

Definition digits_value (ds : pystr) : N :=
  fold_left (fun acc c => acc * 10 + (c - 48)) ds 0.

Definition hex_val (c : N) : option N :=
  if is_digit c then Some (c - 48)
  else if Utf8.in_range 97 102 c then Some (c - 87)
  else if Utf8.in_range 65 70 c then Some (c - 55)
  else None.

Definition hex4 (s : pystr) : option (N * pystr) :=
  match s with
  | a :: b :: c :: d :: rest =>
    match hex_val a, hex_val b, hex_val c, hex_val d with
    | Some x, Some y, Some z, Some w =>
      Some (x * 4096 + y * 256 + z * 16 + w, rest)
    | _, _, _, _ => None
    end
  | _ => None
  end.

Fixpoint strip_prefix (p s : pystr) : option pystr :=
  match p, s with
  | [], _ => Some s
  | a :: p', b :: s' => if a =? b then strip_prefix p' s' else None
  | _ :: _, [] => None
  end.

Definition simple_escape (e : N) : option N :=
  if e =? quote then Some quote
  else if e =? backslash then Some backslash
  else if e =? ch "/" then Some (ch "/")
  else if e =? ch "b" then Some 8
  else if e =? ch "f" then Some 12
  else if e =? ch "n" then Some 10
  else if e =? ch "r" then Some 13
  else if e =? ch "t" then Some 9
  else None.

Definition pcons (c : N) (r : pres pystr) : pres pystr :=
  match r with
  | POk t rest => POk (c :: t) rest
  | PErr => PErr
  | PDeep => PDeep
  end.

(** The body of a string, after its opening quote, up to and including
    the closing quote. A high surrogate escape joins with a low surrogate
    escape that follows it. *)
Fixpoint scanstring (fuel : nat) (s : pystr) : pres pystr :=
  match fuel with
  | O => PErr
  | S fuel' =>
    match s with
    | [] => PErr
    | c :: s1 =>
      if c =? quote then POk [] s1
      else if c <? 32 then PErr
      else if c =? backslash then
        match s1 with
        | [] => PErr
        | e :: s2 =>
          if e =? ch "u" then
            match hex4 s2 with
            | None => PErr
            | Some (u, s3) =>
              if Utf8.in_range 55296 56319 u then
                match strip_prefix [backslash; ch "u"] s3 with
                | Some s4 =>
                  match hex4 s4 with
                  | None => PErr
                  | Some (u2, s5) =>
                    if Utf8.in_range 56320 57343 u2
                    then pcons (65536 + (u - 55296) * 1024 + (u2 - 56320))
                               (scanstring fuel' s5)
                    else pcons u (scanstring fuel' s3)
                  end
                | None => pcons u (scanstring fuel' s3)
                end
              else pcons u (scanstring fuel' s3)
            end
          else
            match simple_escape e with
            | Some c' => pcons c' (scanstring fuel' s2)
            | None => PErr
            end
        end
      else pcons c (scanstring fuel' s1)
    end
  end.

(** A number: an optional minus sign, then a single zero or a digit run
    that does not start with zero, then an optional fraction (a dot and
    at least one digit), then an optional exponent (e or E, an optional
    sign, at least one digit). It is an [int] unless a fraction or an
    exponent is present. *)
Definition match_number (s : pystr) : pres json :=
  let (neg, s1) :=
    match s with
    | c :: t => if c =? ch "-" then (true, t) else (false, s)
    | [] => (false, s)
    end in
  match s1 with
  | [] => PErr
  | c :: s2 =>
    if is_digit c then
      let (ids, s3) :=
        if c =? ch "0" then ([c], s2)
        else let (ds, r) := span_digits s2 in (c :: ds, r) in
      let (fds, s4) :=
        match s3 with
        | dot :: d :: _ =>
          if (dot =? ch ".") && is_digit d
          then span_digits (tl s3)
          else ([], s3)
        | _ => ([], s3)
        end in
      let '(ex, s5) :=
        match s4 with
        | e :: t =>
          if (e =? ch "e") || (e =? ch "E") then
            let (eneg, t') :=
              match t with
              | sg :: t1 =>
                if sg =? ch "-" then (true, t1)
                else if sg =? ch "+" then (false, t1)
                else (false, t)
              | [] => (false, t)
              end in
            match span_digits t' with
            | ([], _) => (None, s4)
            | (eds, r) =>
              let v := Z.of_N (digits_value eds) in
              (Some (if eneg then (- v)%Z else v), r)
            end
          else (None, s4)
        | [] => (None, s4)
        end in
      match fds, ex with
      | [], None =>
        let v := Z.of_N (digits_value ids) in
        POk (JInt (if neg then (- v)%Z else v)) s5
      | _, _ =>
        POk (JFloat neg (digits_value (ids ++ fds))
                    (default 0%Z ex - Z.of_nat (length fds))%Z) s5
      end
    else PErr
  end.

Definition literal (p : string) (v : json) (s : pystr)
           (otherwise : pres json) : pres json :=
  match strip_prefix (Utf8.lit p) s with
  | Some rest => POk v rest
  | None => otherwise
  end.

(** Members of an object, from the opening quote of a key on. *)
Fixpoint object_members (scan : pystr -> pres json) (fuel : nat)
         (s : pystr) (d : list (pystr * json)) : pres json :=
  match fuel with
  | O => PErr
  | S fuel' =>
    match s with
    | [] => PErr
    | q :: s1 =>
      if q =? quote then
        match scanstring (S (length s1)) s1 with
        | POk key s2 =>
          match skip_ws s2 with
          | colon :: s3 =>
            if colon =? ch ":" then
              match scan (skip_ws s3) with
              | POk v s4 =>
                let d' := Py.dict_set key v d in
                match skip_ws s4 with
                | c :: s5 =>
                  if c =? ch "}" then POk (JObject d') s5
                  else if c =? ch ","
                  then object_members scan fuel' (skip_ws s5) d'
                  else PErr
                | [] => PErr
                end
              | PErr => PErr
              | PDeep => PDeep
              end
            else PErr
          | [] => PErr
          end
        | PErr => PErr
        | PDeep => PDeep
        end
      else PErr
    end
  end.

(** Elements of an array, from the first byte of an element on. *)
Fixpoint array_elements (scan : pystr -> pres json) (fuel : nat)
         (s : pystr) (acc : list json) : pres json :=
  match fuel with
  | O => PErr
  | S fuel' =>
    match scan s with
    | POk v s1 =>
      match skip_ws s1 with
      | c :: s2 =>
        if c =? ch "]" then POk (JArray (acc ++ [v])) s2
        else if c =? ch ","
        then array_elements scan fuel' (skip_ws s2) (acc ++ [v])
        else PErr
      | [] => PErr
      end
    | PErr => PErr
    | PDeep => PDeep
    end
  end.

(** One value at the head of [s]; [depth] is the nesting still allowed
    before the interpreter raises [RecursionError]. *)
Fixpoint scan_once (depth : nat) (s : pystr) : pres json :=
  match s with
  | [] => PErr
  | c :: s1 =>
    if c =? quote then
      match scanstring (S (length s1)) s1 with
      | POk t rest => POk (JString t) rest
      | PErr => PErr
      | PDeep => PDeep
      end
    else if c =? ch "{" then
      match depth with
      | O => PDeep
      | S depth' =>
        match skip_ws s1 with
        | c1 :: s2 =>
          if c1 =? ch "}" then POk (JObject []) s2
          else object_members (scan_once depth') (S (length s1))
                              (skip_ws s1) []
        | [] => PErr
        end
      end
    else if c =? ch "[" then
      match depth with
      | O => PDeep
      | S depth' =>
        match skip_ws s1 with
        | c1 :: s2 =>
          if c1 =? ch "]" then POk (JArray []) s2
          else array_elements (scan_once depth') (S (length s1))
                              (skip_ws s1) []
        | [] => PErr
        end
      end
    else if c =? ch "n" then literal "null" JNull s (match_number s)
    else if c =? ch "t" then literal "true" (JBool true) s (match_number s)
    else if c =? ch "f" then literal "false" (JBool false) s (match_number s)
    else if c =? ch "N" then literal "NaN" (JNonFinite NaN) s (match_number s)
    else if c =? ch "I"
    then literal "Infinity" (JNonFinite PosInfinity) s (match_number s)
    else if c =? ch "-"
    then literal "-Infinity" (JNonFinite NegInfinity) s (match_number s)
    else match_number s
  end.

(** Nesting depth at which the scanner gives up: the interpreter's default
    recursion limit, the frames already on the stack not subtracted. *)
Definition recursion_limit : nat := 1000.

Inductive loads_result :=
| Parsed (v : json)
| DecodeError
| TooDeep.

(** [json.loads(s)] for a [str]: one value, surrounded by optional
    whitespace, and nothing else. *)
Definition loads (s : pystr) : loads_result :=
  match scan_once recursion_limit (skip_ws s) with
  | POk v rest =>
    match skip_ws rest with
    | [] => Parsed v
    | _ :: _ => DecodeError
    end
  | PErr => DecodeError
  | PDeep => TooDeep
  end.

End Json.

(** ** The transport's response object (aiohttp.ClientResponse)

    Only what the client touches: the status, the body stream read by
    [content.read] and [json()], and [close()]. [closed] records that
    [close()] was called; [conn_closes] counts how often an attached
    connection was torn down by it. The body is taken to be UTF-8. *)

Record ClientResponse := {
  status : Z;
  json_content_type : bool;        (* Content-Type is application/json *)
  content : list byte;             (* body bytes not read yet *)
  body : option (list byte);       (* body cached by a full read *)
  closed : bool;
  connection : bool;               (* a connection is still attached *)
  conn_closes : nat;
}.

(** ** Exceptions *)

(** First argument of [Etcd3APIError]: a decoded value, or the response's
    [content] stream object when the body could not be parsed. *)
Inductive error_arg :=
| EValue (v : json)
| EContent (unread : list byte).

(** Modelled from the spec: the [errors] module is not part of the sources;
    its three classes keep their constructor arguments, and
    [Etcd3APIError] and [Etcd3StreamError] derive from [Etcd3Exception]. *)
Inductive exn :=
| StopAsyncIteration
| Etcd3Exception (error : string)
| Etcd3APIError (error : error_arg) (code : json) (http_status : json)
                (response : option ClientResponse)
| Etcd3StreamError (error : string) (partial : list byte)
                   (resp : ClientResponse)
| UnicodeDecodeError
| JSONDecodeError
| RecursionError
| AttributeError
| ContentTypeError
| ClientConnectionError
| TypeError
| OtherError (name : string).

Definition is_Etcd3Exception (e : exn) : bool :=
  match e with
  | Etcd3Exception _ | Etcd3APIError _ _ _ _ | Etcd3StreamError _ _ _ => true
  | _ => false
  end.

Inductive outcome (A : Type) :=
| Return (a : A)
| Raise (e : exn).
Arguments Return {A} a.
Arguments Raise {A} e.

Module Response.

Definition with_content (r : ClientResponse) (c : list byte)
  : ClientResponse :=
  {| status := status r; json_content_type := json_content_type r;
     content := c; body := body r; closed := closed r;
     connection := connection r; conn_closes := conn_closes r |}.

(** A response as the session hands it over: nothing read, open. *)
Definition fresh (st : Z) (is_json : bool) (payload : list byte)
  : ClientResponse :=
  {| status := st; json_content_type := is_json; content := payload;
     body := None; closed := false; connection := true;
     conn_closes := 0 |}.

(** [resp.close()]: marks the response closed and tears down the
    connection if one is still attached. It does not raise. *)
Definition close (r : ClientResponse) : ClientResponse :=
  {| status := status r; json_content_type := json_content_type r;
     content := content r; body := body r; closed := true;
     connection := false;
     conn_closes := if connection r then S (conn_closes r)
                    else conn_closes r |}.

(** [await resp.read()]: the whole body, cached; a closed response whose
    body was never read has lost it. *)
Definition read (r : ClientResponse)
  : outcome (list byte) * ClientResponse :=
  match body r with
  | Some b => (Return b, r)
  | None =>
    if closed r then (Raise ClientConnectionError, r)
    else
      (Return (content r),
       {| status := status r; json_content_type := json_content_type r;
          content := []; body := Some (content r); closed := closed r;
          connection := connection r; conn_closes := conn_closes r |})
  end.

Definition is_space (b : byte) : bool :=
  let n := Byte.to_N b in (n =? 32) || Utf8.in_range 9 13 n.

Fixpoint lstrip (s : list byte) : list byte :=
  match s with
  | b :: s' => if is_space b then lstrip s' else s
  | [] => []
  end.

(** [bytes.strip()]. *)
Definition strip (s : list byte) : list byte :=
  rev (lstrip (rev (lstrip s))).

(** [await resp.json()]: read the body, insist on a JSON content type,
    give [None] for a blank body, else decode and parse. *)
Definition json (r : ClientResponse) : outcome json * ClientResponse :=
  match read r with
  | (Raise e, r') => (Raise e, r')
  | (Return b, r') =>
    if negb (json_content_type r') then (Raise ContentTypeError, r')
    else
      match strip b with
      | [] => (Return JNull, r')
      | stripped =>
        match Utf8.decode stripped with
        | None => (Raise UnicodeDecodeError, r')
        | Some text =>
          match Json.loads text with
          | Json.Parsed v => (Return v, r')
          | Json.DecodeError => (Raise JSONDecodeError, r')
          | Json.TooDeep => (Raise RecursionError, r')
          end
        end
      end
  end.

End Response.

(** ** Collaborators inherited from [BaseClient]

    The base class is not part of the sources; the three methods the
    asynchronous client calls on it are taken as an interface. *)

Class BaseClient := {
  Model : Type;
  _url : string -> string;
  _encodeRPCRequest : string -> json -> outcome json;
  _modelizeResponseData : string -> json -> bool -> outcome Model;
}.

(** ** The asynchronous iteration protocol

    [async for x in obj] first calls [obj.__aiter__()]. A method declared
    with [def] returns the iterator; one declared with [async def] returns
    a coroutine that would give the iterator when awaited. *)

Inductive aiter_value (S : Type) :=
| Iterator (it : S)
| Coroutine (result : S).
Arguments Iterator {S} it.
Arguments Coroutine {S} result.

(** Interpreters from 3.5.2 to 3.6 still await an awaitable that
    [__aiter__] returns; from 3.7 on [async for] takes what [__aiter__]
    returns as the iterator and raises [TypeError] when it has no
    [__anext__], as a coroutine has none. *)
Inductive python :=
| Python35_36
| Python37_on.

(** ** [class ResponseIter] *)

Module ResponseIter.

Record t := {
  buf : list byte;        (* one-byte chunks, in arrival order *)
  bracket_flag : Z;
}.

(** [__init__]. The response itself is shared with the stream handle and
    is threaded through as state next to [t]. *)
Definition init : t := {| buf := []; bracket_flag := 0 |}.

Definition open_brace : byte := "{"%byte.
Definition close_brace : byte := "}"%byte.

(** The update of [bracket_flag] by one byte. *)
Definition bump (c : byte) (flag : Z) : Z :=
  if Byte.eqb c open_brace then (flag + 1)%Z
  else if Byte.eqb c close_brace then (flag - 1)%Z
  else flag.

Definition stream_decode_error : string := "Stream decode error".

(** The [while True] loop of [next]; [input] is what
    [self.resp.content.read(1)] will deliver, one byte per turn, and the
    empty list is the empty read at end of body. *)
Fixpoint loop (input : list byte) (self : t) (resp : ClientResponse)
  : outcome (list byte) * (t * ClientResponse) :=
  match input with
  | [] =>
    let resp' := Response.with_content resp [] in
    match buf self with
    | _ :: _ =>
      (Raise (Etcd3StreamError stream_decode_error (buf self) resp'),
       (self, resp'))
    | [] => (Raise StopAsyncIteration, (self, resp'))
    end
  | c :: rest =>
    let resp' := Response.with_content resp rest in
    let buf' := buf self ++ [c] in
    let flag' := bump c (bracket_flag self) in
    if (flag' =? 0)%Z then
      (Return buf', ({| buf := []; bracket_flag := flag' |}, resp'))
    else if (flag' <? 0)%Z then
      (Raise (Etcd3StreamError stream_decode_error buf' resp'),
       ({| buf := buf'; bracket_flag := flag' |}, resp'))
    else loop rest {| buf := buf'; bracket_flag := flag' |} resp'
  end.

(** [async def __aiter__(self): return self]. *)
Definition aiter (s : t * ClientResponse) : aiter_value (t * ClientResponse) :=
  Coroutine s.

(** [async def next(self)]. Reading from a closed response fails in the
    transport. *)
Definition next (self : t) (resp : ClientResponse)
  : outcome (list byte) * (t * ClientResponse) :=
  if closed resp then (Raise ClientConnectionError, (self, resp))
  else loop (content resp) self resp.

End ResponseIter.

(** ** Repeated calls of [__anext__]

    [step] is called again and again until it raises, as a caller does who
    drives an iterator by hand and as [async for] does once it holds the
    iterator; [StopAsyncIteration] is the clean end. The result is what
    was returned on the way, the exception that ended the calls and the
    final state. *)

Fixpoint iterate {S A : Type} (step : S -> outcome A * S) (fuel : nat)
         (s : S) : list A * option exn * S :=
  match fuel with
  | O => ([], None, s)
  | Datatypes.S fuel' =>
    match step s with
    | (Return a, s') =>
      let '(l, e, s'') := iterate step fuel' s' in (a :: l, e, s'')
    | (Raise e, s') => ([], Some e, s')
    end
  end.

(** The statement [async for x in obj]: [__aiter__] is called first, and
    [__anext__] is called only on what the interpreter accepts as the
    iterator. *)
Definition async_for_statement {S A : Type} (py : python)
           (aiter : S -> aiter_value S) (step : S -> outcome A * S)
           (fuel : nat) (s : S) : list A * option exn * S :=
  match aiter s with
  | Iterator it => iterate step fuel it
  | Coroutine it =>
    match py with
    | Python35_36 => iterate step fuel it
    | Python37_on => ([], Some TypeError, s)
    end
  end.

(** ** [class ModelizedStreamResponse] *)

Module ModelizedStreamResponse.

(** [self.resp] and [self.resp_iter.resp] are one object: it lives next
    to the handle, as the second component of the state. *)
Record t := {
  decode : bool;
  method : string;
  resp_iter : ResponseIter.t;
}.

Definition state : Type := t * ClientResponse.

(** [__init__(self, method, resp, decode=True)]. *)
Definition init (method : string) (resp : ClientResponse) (decode : bool)
  : state :=
  ({| decode := decode; method := method;
      resp_iter := ResponseIter.init |}, resp).

(** [close]: [return self.resp.close()]. *)
Definition close (s : state) : state := (fst s, Response.close (snd s)).

Definition with_iter (self : t) (it : ResponseIter.t) : t :=
  {| decode := decode self; method := method self; resp_iter := it |}.

Definition k_error : pystr := Utf8.lit "error".
Definition k_result : pystr := Utf8.lit "result".
Definition k_message : pystr := Utf8.lit "message".
Definition k_code : pystr := Utf8.lit "code".
Definition k_http_code : pystr := Utf8.lit "http_code".

(** Lines 45 to 52 of the source: what [__anext__] does with one frame. *)
Definition handle_frame `{BaseClient} (self : t) (frame : list byte)
  : outcome Model :=
  match Utf8.decode frame with
  | None => Raise UnicodeDecodeError
  | Some text =>
    match Json.loads text with
    | Json.DecodeError => Raise JSONDecodeError
    | Json.TooDeep => Raise RecursionError
    | Json.Parsed (JObject data) =>
      let err := Py.dict_get k_error data in
      if Py.truthy err then
        match err with
        | JObject e =>
          Raise (Etcd3APIError (EValue (Py.dict_get k_message e))
                               (Py.dict_get k_code e)
                               (Py.dict_get k_http_code e) None)
        | _ => Raise AttributeError
        end
      else
        let payload :=
          if Py.dict_contains k_result data
          then Py.dict_get_or k_result (JObject []) data
          else JObject data in
        _modelizeResponseData (method self) payload (decode self)
    | Json.Parsed _ => Raise AttributeError
    end
  end.

(** [async def __anext__(self)]. *)
Definition anext `{BaseClient} (s : state) : outcome Model * state :=
  let (self, resp) := s in
  match ResponseIter.next (resp_iter self) resp with
  | (Raise e, (it, resp')) => (Raise e, (with_iter self it, resp'))
  | (Return frame, (it, resp')) =>
    (handle_frame self frame, (with_iter self it, resp'))
  end.

(** [async def __aiter__(self): return self]. *)
Definition aiter (s : state) : aiter_value state := Coroutine s.

(** [__anext__] called by hand, again and again, until it raises. *)
Definition drive `{BaseClient} (s : state)
  : list Model * option exn * state :=
  iterate anext (S (length (content (snd s)))) s.

(** [async for r in handle]. *)
Definition async_for `{BaseClient} (py : python) (s : state)
  : list Model * option exn * state :=
  async_for_statement py aiter anext (S (length (content (snd s)))) s.

End ModelizedStreamResponse.

(** ** [class AioClient] *)

Module AioClient.

(** Keyword arguments of [call_rpc] that the method itself looks at;
    [None] is an absent key. *)
Record Kwargs := {
  kw_timeout : option (option Z);
  kw_headers : option (gmap string string);
}.

(** What [self._post] passes to the session. *)
Record Request := {
  req_url : string;
  req_json : json;
  req_timeout : option Z;
  req_headers : gmap string string;
}.

(** The client object. [session_post] is the HTTP exchange of
    [self.session.post]; [_modelizeStreamResponse] is the method slot
    that [call_rpc] dispatches through [self]. *)
Record t := {
  timeout : option Z;
  user_agent : string;
  headers : gmap string string;
  session_post : Request -> outcome ClientResponse;
  _modelizeStreamResponse :
    string -> ClientResponse -> outcome ModelizedStreamResponse.t;
}.

(** The class's own [_modelizeStreamResponse]. *)
Definition own_modelizeStreamResponse (method : string)
           (resp : ClientResponse) : outcome ModelizedStreamResponse.t :=
  Return (fst (ModelizedStreamResponse.init method resp true)).

(** [d.setdefault(k, v)] and [d.update(other)] on a header mapping. *)
Definition setdefault (k v : string) (d : gmap string string)
  : gmap string string :=
  match d !! k with
  | Some _ => d
  | None => <[k := v]> d
  end.

Definition update (d other : gmap string string) : gmap string string :=
  other ∪ d.

(** [v or {}]. *)
Definition or_empty (v : json) : json :=
  if Py.truthy v then v else JObject [].

Definition k_error : pystr := Utf8.lit "error".
Definition k_code : pystr := Utf8.lit "code".

(** [_raise_for_status]. *)
Definition _raise_for_status (resp : ClientResponse)
  : outcome unit * ClientResponse :=
  if (status resp <? 400)%Z then (Return tt, resp)
  else
    match Response.json resp with
    | (Raise _, resp') =>
      (Raise (Etcd3APIError (EContent (content resp')) (JInt 2)
                            (JInt (status resp)) (Some resp')), resp')
    | (Return (JObject data), resp') =>
      (Raise (Etcd3APIError (EValue (Py.dict_get k_error data))
                            (Py.dict_get k_code data)
                            (JInt (status resp)) (Some resp')), resp')
    | (Return _, resp') => (Raise AttributeError, resp')
    end.

(** Lines 182 to 187 of [call_rpc]: the arguments of [self._post]. *)
Definition build_request `{BaseClient} (self : t) (method : string)
           (data : json) (encode : bool) (kwargs : Kwargs)
  : outcome Request :=
  let data := or_empty data in
  let tmo := default (timeout self) (kw_timeout kwargs) in
  let h0 := default ∅ (kw_headers kwargs) in
  let h1 := setdefault "user_agent" (user_agent self) h0 in
  let h2 := update h1 (headers self) in
  let send d :=
    Return {| req_url := _url method; req_json := or_empty d;
              req_timeout := tmo; req_headers := h2 |} in
  if encode then
    match _encodeRPCRequest method data with
    | Return d => send d
    | Raise e => Raise e
    end
  else send data.

Inductive rpc_value `{BaseClient} :=
| RawResponse
| StreamHandle (h : ModelizedStreamResponse.t)
| Modeled (m : Model).

(** What a call leaves behind: the request that went out, the response
    object in its final state, and the value returned or the exception
    raised. *)
Record call_result `{BaseClient} := {
  sent : option Request;
  response : option ClientResponse;
  result : outcome rpc_value;
}.

(** The last line of [call_rpc]. *)
Definition modelize_body `{BaseClient} (method : string)
           (resp : ClientResponse) : outcome rpc_value * ClientResponse :=
  match Response.json resp with
  | (Raise e, resp') => (Raise e, resp')
  | (Return v, resp') =>
    (match _modelizeResponseData method v true with
     | Return m => Return (Modeled m)
     | Raise e => Raise e
     end, resp')
  end.

(** Lines 188 to 197 of [call_rpc], once the request is built. *)
Definition exchange `{BaseClient} (self : t) (method : string)
           (stream raw : bool) (rq : Request) : call_result :=
  match session_post self rq with
  | Raise e => {| sent := Some rq; response := None; result := Raise e |}
  | Return resp =>
    match _raise_for_status resp with
    | (Raise e, resp1) =>
      {| sent := Some rq; response := Some resp1; result := Raise e |}
    | (Return _, resp1) =>
      if raw then
        {| sent := Some rq; response := Some resp1;
           result := Return RawResponse |}
      else
        let finish (r : ClientResponse) :=
          let (res, r') := modelize_body method r in
          {| sent := Some rq; response := Some r'; result := res |} in
        if stream then
          match _modelizeStreamResponse self method resp1 with
          | Return h =>
            {| sent := Some rq; response := Some resp1;
               result := Return (StreamHandle h) |}
          | Raise e =>
            if is_Etcd3Exception e
            then finish (Response.close resp1)
            else {| sent := Some rq; response := Some resp1;
                    result := Raise e |}
          end
        else finish resp1
    end
  end.

(** [async def call_rpc(self, method, data=None, stream=False,
    encode=True, raw=False, **kwargs)]. *)
Definition call_rpc `{BaseClient} (self : t) (method : string)
           (data : json) (stream encode raw : bool) (kwargs : Kwargs)
  : call_result :=
  match build_request self method data encode kwargs with
  | Raise e => {| sent := None; response := None; result := Raise e |}
  | Return rq => exchange self method stream raw rq
  end.

End AioClient.

(** ** Concrete inputs *)

(** A byte string written with a single quote wherever the bytes have a
    double quote. *)
Definition bytes_of (s : string) : list byte :=
  map (fun b => if Byte.eqb b "'"%byte then x22 else b)
      (list_byte_of_string s).

(** A stand-in for the base class that models every payload as itself. *)
Definition identity_base : BaseClient := {|
  Model := json;
  _url := fun m => m;
  _encodeRPCRequest := fun _ d => Return d;
  _modelizeResponseData := fun _ d _ => Return d;
|}.

(** ** Frames, as the tokenizer sees them *)

Module Frames.

(** Brace depth of a byte string when counting starts at [flag]: every
    byte counts, also those inside string literals. *)
Definition depth_from (flag : Z) (s : list byte) : Z :=
  fold_left (fun d c => ResponseIter.bump c d) s flag.

Definition brace_depth (s : list byte) : Z := depth_from 0 s.

(** A frame: not empty, depth zero at its end and positive after every
    proper non-empty prefix. *)
Definition framed_from (flag : Z) (o : list byte) : Prop :=
  o <> [] /\ depth_from flag o = 0%Z /\
  forall p q, o = p ++ q -> p <> [] -> q <> [] ->
              (0 < depth_from flag p)%Z.

Definition framed (o : list byte) : Prop := framed_from 0 o.

(** The same, as a check that runs. *)
Fixpoint closes (flag : Z) (s : list byte) : bool :=
  match s with
  | [] => false
  | c :: s' =>
    let flag' := ResponseIter.bump c flag in
    match s' with
    | [] => (flag' =? 0)%Z
    | _ :: _ => (0 <? flag')%Z && closes flag' s'
    end
  end.

(** The start of a frame that is cut off: not empty, and the depth is
    positive after every non-empty prefix, the whole included. *)
Definition unfinished_from (flag : Z) (p : list byte) : Prop :=
  p <> [] /\
  forall p1 p2, p = p1 ++ p2 -> p1 <> [] -> (0 < depth_from flag p1)%Z.

Definition unfinished (p : list byte) : Prop := unfinished_from 0 p.

Fixpoint stays_open (flag : Z) (s : list byte) : bool :=
  match s with
  | [] => true
  | c :: s' =>
    let flag' := ResponseIter.bump c flag in
    (0 <? flag')%Z && stays_open flag' s'
  end.

(** The reading of a balanced object by counts alone: it parses as a
    JSON object and has as many opening as closing braces. *)
Definition is_json_object (o : list byte) : Prop :=
  exists text d, Utf8.decode o = Some text
                 /\ Json.loads text = Json.Parsed (JObject d).

Definition counts_balanced (o : list byte) : Prop :=
  count_occ Byte.byte_eq_dec o ResponseIter.open_brace
  = count_occ Byte.byte_eq_dec o ResponseIter.close_brace.

End Frames.

(** [next] called again and again, until it raises, from the state
    [(self, resp)]: how the stream handle and any other caller of
    [ResponseIter.next] gets at the frames. *)
Definition drain (s : ResponseIter.t * ClientResponse)
  : list (list byte) * option exn * (ResponseIter.t * ClientResponse) :=
  iterate (fun st => ResponseIter.next (fst st) (snd st))
          (S (length (content (snd s)))) s.

(** The exception with which [__anext__] answers a frame made of the one
    byte [b], when [b] is no brace. *)
Definition one_byte_exn (b : byte) : exn :=
  let n := Byte.to_N b in
  if Json.is_digit n then AttributeError
  else if n <? 128 then JSONDecodeError
  else UnicodeDecodeError.

(** A client whose session answers every request with [resp]. *)
Definition client_answering (resp : ClientResponse)
           (hdrs : gmap string string) : AioClient.t := {|
  AioClient.timeout := None;
  AioClient.user_agent := "etcd3-py";
  AioClient.headers := hdrs;
  AioClient.session_post := fun _ => Return resp;
  AioClient._modelizeStreamResponse := AioClient.own_modelizeStreamResponse;
|}.

(** The same client with [_modelizeStreamResponse] overridden by a method
    that raises [e]. *)
Definition client_failing_stream (resp : ClientResponse) (e : exn)
  : AioClient.t := {|
  AioClient.timeout := None;
  AioClient.user_agent := "etcd3-py";
  AioClient.headers := ∅;
  AioClient.session_post := fun _ => Return resp;
  AioClient._modelizeStreamResponse := fun _ _ => Raise e;
|}.

Definition no_kwargs : AioClient.Kwargs :=
  {| AioClient.kw_timeout := None; AioClient.kw_headers := None |}.

Definition with_headers (h : gmap string string) : AioClient.Kwargs :=
  {| AioClient.kw_timeout := None; AioClient.kw_headers := Some h |}.

(** The gateway's error body of the examples. *)
Definition transport_closing_body : list byte :=
  bytes_of "{'error':{'grpc_code':14,'http_code':503,'message':'transport is closing'}}".

Definition transport_closing_error : json :=
  JObject [(Utf8.lit "grpc_code", JInt 14);
           (Utf8.lit "http_code", JInt 503);
           (Utf8.lit "message", JString (Utf8.lit "transport is closing"))].

Definition two_results_body : list byte :=
  bytes_of "{'result':{'x':1}}{'result':{'x':2}}".

Definition payload_x (n : Z) : json := JObject [(Utf8.lit "x", JInt n)].

(** A stand-in for the base class whose request encoder refuses every
    method. *)
Definition refusing_base : BaseClient := {|
  Model := json;
  _url := fun m => m;
  _encodeRPCRequest := fun _ _ => Raise (OtherError "KeyError");
  _modelizeResponseData := fun _ d _ => Return d;
|}.

(** * Properties *)

(** ** The response object *)

Lemma with_content_twice (r : ClientResponse) (a b : list byte) :
  Response.with_content (Response.with_content r a) b
  = Response.with_content r b.
Proof. reflexivity. Qed.

Lemma with_content_same (r : ClientResponse) :
  Response.with_content r (content r) = r.
Proof. destruct r; reflexivity. Qed.

Lemma with_content_closed (r : ClientResponse) (a : list byte) :
  closed (Response.with_content r a) = closed r.
Proof. reflexivity. Qed.

(** ** Iteration *)

Lemma iterate_return {S A : Type} (step : S -> outcome A * S) (fuel : nat)
      (s : S) (a : A) (s' : S) :
  step s = (Return a, s') ->
  iterate step (Datatypes.S fuel) s
  = (let '(l, e, s'') := iterate step fuel s' in (a :: l, e, s'')).
Proof. intros E. cbn [iterate]. now rewrite E. Qed.

Lemma iterate_raise {S A : Type} (step : S -> outcome A * S) (fuel : nat)
      (s : S) (e : exn) (s' : S) :
  step s = (Raise e, s') ->
  iterate step (Datatypes.S fuel) s = ([], Some e, s').
Proof. intros E. cbn [iterate]. now rewrite E. Qed.

(** ** The tokenizer *)

Section Tokenizer.

Import ResponseIter Frames.

Lemma bump_cases (c : byte) (flag : Z) :
  (c = open_brace /\ bump c flag = (flag + 1)%Z)
  \/ (c = close_brace /\ bump c flag = (flag - 1)%Z)
  \/ (c <> open_brace /\ c <> close_brace /\ bump c flag = flag).
Proof.
  unfold bump.
  destruct (Byte.eqb c open_brace) eqn:Ho.
  - left. split; [apply Byte.byte_dec_bl, Ho | reflexivity].
  - apply Byte.eqb_false in Ho.
    destruct (Byte.eqb c close_brace) eqn:Hc.
    + right; left. split; [apply Byte.byte_dec_bl, Hc | reflexivity].
    + apply Byte.eqb_false in Hc. right; right. auto.
Qed.

Lemma depth_from_cons (flag : Z) (c : byte) (s : list byte) :
  depth_from flag (c :: s) = depth_from (bump c flag) s.
Proof. reflexivity. Qed.

Lemma depth_from_app (flag : Z) (s t : list byte) :
  depth_from flag (s ++ t) = depth_from (depth_from flag s) t.
Proof. unfold depth_from. apply fold_left_app. Qed.

(** [closes] decides [framed_from]. *)
Lemma closes_framed (s : list byte) :
  forall flag, closes flag s = true <-> framed_from flag s.
Proof.
  induction s as [|c s IH]; intros flag.
  - split; [discriminate | intros [H _]; congruence].
  - destruct s as [|c' s'].
    + simpl. rewrite Z.eqb_eq. split.
      * intros H. split; [discriminate|]. split; [exact H|].
        intros p q Hpq Hp Hq. exfalso.
        destruct p as [|x p]; [congruence|].
        destruct p; destruct q; simpl in Hpq; congruence.
      * intros (_ & H & _). exact H.
    + change (closes flag (c :: c' :: s'))
        with ((0 <? bump c flag)%Z && closes (bump c flag) (c' :: s')).
      rewrite andb_true_iff, Z.ltb_lt, IH. split.
      * intros (Hpos & Hne & Hend & Hpre).
        split; [discriminate|]. split; [exact Hend|].
        intros p q Hpq Hp Hq.
        destruct p as [|x p]; [congruence|].
        injection Hpq as -> Hpq.
        destruct p as [|y p]; [exact Hpos|].
        rewrite depth_from_cons.
        apply (Hpre (y :: p) q); try discriminate; auto.
      * intros (_ & Hend & Hpre). split.
        -- apply (Hpre [c] (c' :: s')); [reflexivity| |]; discriminate.
        -- split; [discriminate|]. split; [exact Hend|].
           intros p q Hpq Hp Hq.
           rewrite <- depth_from_cons.
           apply (Hpre (c :: p) q); [|discriminate|exact Hq].
           simpl. now rewrite Hpq.
Qed.

(** [stays_open] decides [unfinished_from] on non-empty input. *)
Lemma stays_open_unfinished (s : list byte) :
  forall flag, s <> [] ->
               (stays_open flag s = true <-> unfinished_from flag s).
Proof.
  induction s as [|c s IH]; intros flag Hne; [congruence|].
  simpl. rewrite andb_true_iff, Z.ltb_lt.
  destruct s as [|c' s'].
  - simpl. split.
    + intros [Hpos _]. split; [discriminate|].
      intros p1 p2 Hp H1.
      destruct p1 as [|x p1]; [congruence|].
      injection Hp as -> Hp. destruct p1; [exact Hpos|discriminate].
    + intros [_ H]. split; [|reflexivity].
      apply (H [c] []); [reflexivity|discriminate].
  - rewrite IH by discriminate. split.
    + intros (Hpos & _ & Hpre). split; [discriminate|].
      intros p1 p2 Hp H1.
      destruct p1 as [|x p1]; [congruence|].
      injection Hp as -> Hp.
      destruct p1 as [|y p1]; [exact Hpos|].
      rewrite depth_from_cons.
      apply (Hpre (y :: p1) p2); try discriminate; auto.
    + intros (_ & Hpre). split.
      * apply (Hpre [c] (c' :: s')); [reflexivity|discriminate].
      * split; [discriminate|].
        intros p1 p2 Hp H1. rewrite <- depth_from_cons.
        apply (Hpre (c :: p1) p2); [|discriminate].
        simpl. now rewrite Hp.
Qed.

(** The loop on a frame followed by anything: the frame comes back, the
    rest stays unread and the tokenizer is as new. *)
Lemma loop_closes (s : list byte) :
  forall rest self resp,
    closes (bracket_flag self) s = true ->
    loop (s ++ rest) self resp
    = (Return (buf self ++ s), (init, Response.with_content resp rest)).
Proof.
  induction s as [|c s IH]; intros rest self resp H; [discriminate|].
  destruct s as [|c' s'].
  - simpl in H. apply Z.eqb_eq in H. simpl.
    rewrite H. reflexivity.
  - change (closes (bracket_flag self) (c :: c' :: s'))
      with ((0 <? bump c (bracket_flag self))%Z
            && closes (bump c (bracket_flag self)) (c' :: s')) in H.
    apply andb_true_iff in H as [Hpos H]. apply Z.ltb_lt in Hpos.
    change ((c :: c' :: s') ++ rest) with (c :: (c' :: s') ++ rest).
    cbn [loop].
    destruct (Z.eqb_spec (bump c (bracket_flag self)) 0) as [E|_]; [lia|].
    destruct (Z.ltb_spec (bump c (bracket_flag self)) 0) as [E|_]; [lia|].
    rewrite IH by exact H. cbn [buf].
    rewrite with_content_twice, <- app_assoc. reflexivity.
Qed.

(** The loop on a cut-off frame: end of body with bytes pending. *)
Lemma loop_stays_open (s : list byte) :
  forall self resp,
    buf self ++ s <> [] ->
    stays_open (bracket_flag self) s = true ->
    let resp' := Response.with_content resp [] in
    let self' := {| buf := buf self ++ s;
                    bracket_flag := depth_from (bracket_flag self) s |} in
    loop s self resp
    = (Raise (Etcd3StreamError stream_decode_error (buf self ++ s) resp'),
       (self', resp')).
Proof.
  induction s as [|c s IH]; intros self resp Hne H.
  - rewrite app_nil_r in *. destruct self as [b f]. simpl in *.
    destruct b; [congruence|reflexivity].
  - simpl in H. apply andb_true_iff in H as [Hpos H].
    apply Z.ltb_lt in Hpos. cbn [loop].
    destruct (Z.eqb_spec (bump c (bracket_flag self)) 0) as [E|_]; [lia|].
    destruct (Z.ltb_spec (bump c (bracket_flag self)) 0) as [E|_]; [lia|].
    cbn zeta.
    rewrite IH; cbn [buf bracket_flag]; rewrite <- ?app_assoc; auto.
    all: try (intros E; destruct (buf self); discriminate).
Qed.

(** One call of [next] at the start of a frame. *)
Lemma next_frame (o rest : list byte) (resp : ClientResponse) :
  closed resp = false -> content resp = o ++ rest -> framed o ->
  next init resp = (Return o, (init, Response.with_content resp rest)).
Proof.
  intros Hc Hcont Hf. unfold next. rewrite Hc, Hcont.
  apply closes_framed in Hf.
  now rewrite (loop_closes o rest init resp Hf).
Qed.

(** A byte that takes the counter below zero ends the call with a
    [StreamError] at that byte; what follows stays unread. *)
Lemma next_negative (self : t) (resp : ClientResponse) (c : byte)
      (rest : list byte) :
  closed resp = false -> content resp = c :: rest ->
  (bump c (bracket_flag self) < 0)%Z ->
  let resp' := Response.with_content resp rest in
  next self resp
  = (Raise (Etcd3StreamError stream_decode_error (buf self ++ [c]) resp'),
     ({| buf := buf self ++ [c];
         bracket_flag := bump c (bracket_flag self) |}, resp')).
Proof.
  intros Hc Hcont Hneg. unfold next. rewrite Hc, Hcont. cbn [loop].
  destruct (Z.eqb_spec (bump c (bracket_flag self)) 0) as [E|_]; [lia|].
  destruct (Z.ltb_spec (bump c (bracket_flag self)) 0) as [_|E]; [|lia].
  reflexivity.
Qed.

(** One call of [next] on an exhausted body. *)
Lemma next_exhausted (self : t) (resp : ClientResponse) :
  closed resp = false -> content resp = [] ->
  next self resp
  = (Raise (match buf self with
            | [] => StopAsyncIteration
            | _ :: _ => Etcd3StreamError stream_decode_error (buf self) resp
            end), (self, resp)).
Proof.
  intros Hc Hcont. unfold next. rewrite Hc, Hcont. cbn [loop].
  rewrite <- Hcont, with_content_same. now destruct (buf self).
Qed.

Lemma framed_nonempty (o : list byte) : framed o -> (0 < length o)%nat.
Proof. intros [H _]. destruct o; [congruence|simpl; lia]. Qed.

Lemma length_concat_framed (objs : list (list byte)) :
  Forall framed objs -> (length objs <= length (concat objs))%nat.
Proof.
  induction 1 as [|o objs Ho _ IH]; simpl; [lia|].
  rewrite length_app. apply framed_nonempty in Ho. lia.
Qed.

(** Iterating over frames followed by a tail [p], given what the first
    call on [p] alone does. *)
Lemma iterate_frames (objs : list (list byte)) :
  forall (p : list byte) (fuel : nat) (resp : ClientResponse) e st,
    Forall framed objs -> closed resp = false ->
    content resp = concat objs ++ p ->
    (length objs < fuel)%nat ->
    next init (Response.with_content resp p) = (Raise e, st) ->
    iterate (fun st => next (fst st) (snd st)) fuel (init, resp)
    = (objs, Some e, st).
Proof.
  induction objs as [|o objs IH]; intros p fuel resp e st Hf Hc Hcont Hfuel Hp.
  - destruct fuel as [|fuel]; [lia|]. simpl in Hcont. cbn [iterate fst snd].
    rewrite <- Hcont, with_content_same in Hp. now rewrite Hp.
  - destruct fuel as [|fuel]; [simpl in Hfuel; lia|].
    inversion Hf as [|? ? Ho Hrest]; subst.
    simpl in Hcont. rewrite <- app_assoc in Hcont.
    cbn [iterate fst snd].
    rewrite (next_frame o (concat objs ++ p) resp Hc Hcont Ho).
    rewrite (IH p fuel (Response.with_content resp (concat objs ++ p))
                e st); auto.
    simpl in Hfuel. lia.
Qed.

End Tokenizer.

Section TokenizerClaims.

Import ResponseIter Frames.

Lemma prefixes_positive_stays_open (flag : Z) (s : list byte) :
  (forall p1 p2, s = p1 ++ p2 -> p1 <> [] -> (0 < depth_from flag p1)%Z) ->
  stays_open flag s = true.
Proof.
  intros H. destruct s as [|c s]; [reflexivity|].
  apply stays_open_unfinished; [discriminate|].
  split; [discriminate|exact H].
Qed.

(** C5, as stated, does not hold. The single JSON object [{"a":"}{"}] has
    two opening and two closing braces, yet the tokenizer cuts it at the
    closing brace inside the string literal and emits two frames, neither
    of which is the object. *)
Lemma counts_balanced_object_is_split :
  let o := bytes_of "{'a':'}{'}" in
  let resp := Response.fresh 200 true (concat [o]) in
  is_json_object o /\ counts_balanced o /\
  fst (drain (init, resp))
  = ([bytes_of "{'a':'}"; bytes_of "{'}"], Some StopAsyncIteration) /\
  fst (fst (drain (init, resp))) <> [o].
Proof.
  cbv zeta. split; [|split; [|split]].
  - eexists _, _. split; [vm_compute; reflexivity|].
    vm_compute; reflexivity.
  - vm_compute. reflexivity.
  - vm_compute. reflexivity.
  - vm_compute. discriminate.
Qed.

(** C5, amended. For every body that is the concatenation of N objects,
    each of which has brace depth zero at its end and positive brace depth
    after every proper non-empty prefix (all braces counted, also those
    inside string literals), iterating the tokenizer yields exactly these
    N byte strings as frames, in input order, and then ends cleanly with
    the body fully read. The frames being the objects themselves, each is
    parseable whenever the object is. *)
Theorem tokenizer_emits_each_framed_object
        (objs : list (list byte)) (resp : ClientResponse) :
  closed resp = false ->
  content resp = concat objs ->
  Forall framed objs ->
  drain (init, resp)
  = (objs, Some StopAsyncIteration,
     (init, Response.with_content resp [])).
Proof.
  intros Hc Hcont Hf. unfold drain. cbn [snd].
  apply iterate_frames with (p := []); auto.
  - now rewrite app_nil_r.
  - rewrite Hcont. pose proof (length_concat_framed objs Hf). lia.
  - now rewrite next_exhausted.
Qed.

Lemma tokenizer_emits_each_framed_object_witness :
  let objs := [bytes_of "{'result':{'x':1}}"; bytes_of "{}";
               bytes_of "{'a':{'b':[{'c':'d'}]}}"] in
  let resp := Response.fresh 200 true (concat objs) in
  drain (init, resp)
  = (objs, Some StopAsyncIteration,
     (init, Response.with_content resp [])).
Proof.
  cbv zeta.
  apply (tokenizer_emits_each_framed_object
           [bytes_of "{'result':{'x':1}}"; bytes_of "{}";
            bytes_of "{'a':{'b':[{'c':'d'}]}}"]).
  - reflexivity.
  - reflexivity.
  - repeat (constructor; [apply closes_framed; vm_compute; reflexivity|]).
    constructor.
Defined.

(** C7. A call of [next] that reaches the end of the body, the unread
    bytes having kept the brace depth positive (no bytes unread is the
    case of a source that is already exhausted), raises: a
    [StreamError] carrying everything accumulated when that is not
    empty, [StopAsyncIteration] when it is. The partial bytes are not
    returned as a frame, and the iteration ends on that one exception. *)
Theorem exhausted_source_raises (self : t) (resp : ClientResponse) :
  closed resp = false ->
  (forall p1 p2, content resp = p1 ++ p2 -> p1 <> [] ->
                 (0 < depth_from (bracket_flag self) p1)%Z) ->
  let partial := buf self ++ content resp in
  let resp' := Response.with_content resp [] in
  let e := match partial with
           | [] => StopAsyncIteration
           | _ :: _ => Etcd3StreamError stream_decode_error partial resp'
           end in
  next self resp
  = (Raise e,
     ({| buf := partial;
         bracket_flag := depth_from (bracket_flag self) (content resp) |},
      resp'))
  /\ fst (drain (self, resp)) = ([], Some e).
Proof.
  intros Hc Hpre partial resp' e.
  apply prefixes_positive_stays_open in Hpre.
  assert (Hnext : next self resp
                  = (Raise e,
                     ({| buf := partial;
                         bracket_flag :=
                           depth_from (bracket_flag self) (content resp) |},
                      resp'))).
  { destruct partial as [|x partial'] eqn:Hp.
    - subst e. apply app_eq_nil in Hp as [Hb Hcont].
      rewrite next_exhausted by assumption.
      rewrite Hb, Hcont. subst resp'.
      rewrite <- Hcont at 3. rewrite with_content_same.
      destruct self as [b f]; simpl in *; subst; reflexivity.
    - unfold next. rewrite Hc.
      rewrite loop_stays_open; auto.
      + subst e resp'. fold partial. rewrite Hp. reflexivity.
      + fold partial. rewrite Hp. discriminate. }
  split; [exact Hnext|].
  unfold drain. cbn [iterate fst snd]. now rewrite Hnext.
Qed.

Lemma exhausted_source_raises_witness :
  let cut := bytes_of "{'a':1" in
  let resp := Response.fresh 200 true cut in
  next init resp
  = (Raise (Etcd3StreamError stream_decode_error cut
                             (Response.with_content resp [])),
     ({| buf := cut; bracket_flag := 1 |}, Response.with_content resp []))
  /\ fst (drain (init, resp))
     = ([], Some (Etcd3StreamError stream_decode_error cut
                                   (Response.with_content resp []))).
Proof.
  cbv zeta.
  apply (exhausted_source_raises
           init (Response.fresh 200 true (bytes_of "{'a':1"))).
  - reflexivity.
  - assert (H : unfinished (bytes_of "{'a':1")).
    { apply stays_open_unfinished; [discriminate|].
      vm_compute; reflexivity. }
    exact (proj2 H).
Defined.

(** C8. When the first byte of the body is a closing brace, the first
    call of [next] raises a [StreamError] carrying that byte, having read
    nothing more, and the iteration yields no frame. In general, from
    any state, a byte that takes the counter below zero raises the
    [StreamError] at that byte. *)
Theorem unmatched_close_brace_raises
        (resp : ClientResponse) (rest : list byte) :
  closed resp = false ->
  content resp = close_brace :: rest ->
  let resp' := Response.with_content resp rest in
  let e := Etcd3StreamError stream_decode_error [close_brace] resp' in
  next init resp
  = (Raise e, ({| buf := [close_brace]; bracket_flag := -1 |}, resp'))
  /\ fst (drain (init, resp)) = ([], Some e)
  /\ (forall (self : t) (r : ClientResponse) (c : byte) (tail : list byte),
         closed r = false -> content r = c :: tail ->
         (bump c (bracket_flag self) < 0)%Z ->
         next self r
         = (Raise (Etcd3StreamError stream_decode_error (buf self ++ [c])
                                    (Response.with_content r tail)),
            ({| buf := buf self ++ [c];
                bracket_flag := bump c (bracket_flag self) |},
             Response.with_content r tail))).
Proof.
  intros Hc Hcont resp' e.
  assert (Hnext : next init resp
                  = (Raise e, ({| buf := [close_brace];
                                  bracket_flag := -1 |}, resp'))).
  { apply (next_negative init resp close_brace rest Hc Hcont).
    vm_compute. reflexivity. }
  split; [exact Hnext|]. split.
  - unfold drain. cbn [iterate fst snd]. now rewrite Hnext.
  - intros self r c tail. apply next_negative.
Qed.

Lemma unmatched_close_brace_raises_witness :
  let resp := Response.fresh 200 true (bytes_of "}{'a':1}") in
  let resp' := Response.with_content resp (bytes_of "{'a':1}") in
  next init resp
  = (Raise (Etcd3StreamError stream_decode_error [close_brace] resp'),
     ({| buf := [close_brace]; bracket_flag := -1 |}, resp')).
Proof.
  cbv zeta.
  refine (proj1 (unmatched_close_brace_raises
                   (Response.fresh 200 true (bytes_of "}{'a':1}"))
                   (bytes_of "{'a':1}") _ _)); reflexivity.
Defined.

(** A body cut off inside an object, after any number of whole frames:
    the frames come out, then one [StreamError] carrying the cut-off
    bytes. *)
Lemma truncated_stream (objs : list (list byte)) (cut : list byte)
      (resp : ClientResponse) :
  closed resp = false ->
  content resp = concat objs ++ cut ->
  Forall framed objs -> unfinished cut ->
  let resp' := Response.with_content resp [] in
  drain (init, resp)
  = (objs, Some (Etcd3StreamError stream_decode_error cut resp'),
     ({| buf := cut; bracket_flag := brace_depth cut |}, resp')).
Proof.
  intros Hc Hcont Hf Hcut resp'. unfold drain. cbn [snd].
  apply iterate_frames with (p := cut); auto.
  - rewrite Hcont, length_app.
    pose proof (length_concat_framed objs Hf). lia.
  - unfold next. cbn [closed Response.with_content content]. rewrite Hc.
    rewrite (loop_stays_open cut init); cbn [buf bracket_flag init app].
    + reflexivity.
    + exact (proj1 Hcut).
    + apply stays_open_unfinished; [exact (proj1 Hcut)|exact Hcut].
Qed.

(** A byte that is no brace, met with nothing pending, is a frame of its
    own. *)
Lemma next_plain_byte (self : t) (resp : ClientResponse) (b : byte)
      (rest : list byte) :
  closed resp = false -> content resp = b :: rest ->
  buf self = [] -> bracket_flag self = 0%Z ->
  b <> open_brace -> b <> close_brace ->
  next self resp = (Return [b], (init, Response.with_content resp rest)).
Proof.
  intros Hc Hcont Hb Hf Ho Hcl. unfold next. rewrite Hc, Hcont.
  cbn [loop]. rewrite Hb, Hf.
  destruct (bump_cases b 0) as [[E _]|[[E _]|(_ & _ & E)]];
    [contradiction|contradiction|].
  rewrite E. reflexivity.
Qed.

End TokenizerClaims.

(** ** The stream handle *)

Section StreamHandle.

Import ModelizedStreamResponse.

Context `{BaseClient}.

(** [__anext__] on a frame: the frame is handled, the tokenizer's new
    state is kept. *)
Lemma anext_frame (s : state) (frame : list byte) (it : ResponseIter.t)
      (resp' : ClientResponse) :
  ResponseIter.next (resp_iter (fst s)) (snd s) = (Return frame, (it, resp')) ->
  anext s = (handle_frame (fst s) frame, (with_iter (fst s) it, resp')).
Proof. destruct s as [self resp]. unfold anext. cbn. now intros ->. Qed.

Lemma anext_raise (s : state) (e : exn) (it : ResponseIter.t)
      (resp' : ClientResponse) :
  ResponseIter.next (resp_iter (fst s)) (snd s) = (Raise e, (it, resp')) ->
  anext s = (Raise e, (with_iter (fst s) it, resp')).
Proof. destruct s as [self resp]. unfold anext. cbn. now intros ->. Qed.

(** A frame without a truthy [error] goes to the modeler, unwrapped from
    under [result] when that key is there. *)
Lemma handle_frame_payload (self : t) (frame : list byte) (text : pystr)
      (data : list (pystr * json)) :
  Utf8.decode frame = Some text ->
  Json.loads text = Json.Parsed (JObject data) ->
  Py.truthy (Py.dict_get k_error data) = false ->
  handle_frame self frame
  = _modelizeResponseData
      (method self)
      (if Py.dict_contains k_result data
       then Py.dict_get_or k_result (JObject []) data
       else JObject data)
      (decode self).
Proof.
  intros Hd Hl Ht. unfold handle_frame. now rewrite Hd, Hl, Ht.
Qed.

Lemma handle_frame_error (self : t) (frame : list byte) (text : pystr)
      (data e : list (pystr * json)) :
  Utf8.decode frame = Some text ->
  Json.loads text = Json.Parsed (JObject data) ->
  Py.dict_get k_error data = JObject e -> e <> [] ->
  handle_frame self frame
  = Raise (Etcd3APIError (EValue (Py.dict_get k_message e))
                         (Py.dict_get k_code e)
                         (Py.dict_get k_http_code e) None).
Proof.
  intros Hd Hl He Hne. unfold handle_frame. rewrite Hd, Hl, He.
  destruct e; [congruence|reflexivity].
Qed.

(** A one-byte frame that is no brace never reaches the modeler. *)
Lemma handle_frame_one_byte (self : t) (b : byte) :
  b <> ResponseIter.open_brace -> b <> ResponseIter.close_brace ->
  handle_frame self [b] = Raise (one_byte_exn b).
Proof.
  intros Ho Hc. unfold handle_frame.
  destruct b; try reflexivity; exfalso; first [now apply Ho | now apply Hc].
Qed.

End StreamHandle.

Section StreamHandleClaims.

Import ModelizedStreamResponse.

(** C4, as stated, does not hold. The frame [{"error":{}}] parses to a
    document that contains the [error] key, but its value is not truthy:
    [__anext__] raises no [ApiError] and hands the whole document to the
    modeler. *)
Lemma error_key_with_empty_value_is_modeled :
  let frame := bytes_of "{'error':{}}" in
  let doc := [(k_error, JObject [])] in
  let s := init "/watch" (Response.fresh 200 true frame) true in
  (exists text, Utf8.decode frame = Some text
                /\ Json.loads text = Json.Parsed (JObject doc))
  /\ Py.dict_contains k_error doc = true
  /\ fst (@anext identity_base s) = Return (JObject doc)
  /\ forall err code st r,
       fst (@anext identity_base s) <> Raise (Etcd3APIError err code st r).
Proof.
  cbv zeta.
  assert (E : fst (@anext identity_base
                     (init "/watch"
                        (Response.fresh 200 true (bytes_of "{'error':{}}"))
                        true))
              = Return (JObject [(k_error, JObject [])]))
    by (vm_compute; reflexivity).
  split; [|split; [|split]].
  - eexists. split; [vm_compute; reflexivity|]. vm_compute; reflexivity.
  - vm_compute; reflexivity.
  - exact E.
  - intros err code st r. rewrite E. discriminate.
Qed.

(** C4, amended. For every streamed frame whose parsed JSON document is an
    object whose [error] value is a non-empty object, [__anext__] raises an
    [ApiError] whose message is the [message] field of that error
    sub-document, whose code is its [code] field and whose HTTP status is
    its [http_code] field (an absent field gives [None]); no modeled
    result is returned for such a frame. *)
Theorem error_frame_raises_api_error `{BaseClient}
        (s : state) (frame : list byte) (it : ResponseIter.t)
        (resp' : ClientResponse) (text : pystr)
        (data e : list (pystr * json)) :
  ResponseIter.next (resp_iter (fst s)) (snd s)
  = (Return frame, (it, resp')) ->
  Utf8.decode frame = Some text ->
  Json.loads text = Json.Parsed (JObject data) ->
  Py.dict_get k_error data = JObject e -> e <> [] ->
  anext s
  = (Raise (Etcd3APIError (EValue (Py.dict_get k_message e))
                          (Py.dict_get k_code e)
                          (Py.dict_get k_http_code e) None),
     (with_iter (fst s) it, resp')).
Proof.
  intros Hnext Hd Hl He Hne.
  rewrite (anext_frame s frame it resp' Hnext).
  now rewrite (handle_frame_error (fst s) frame text data e Hd Hl He Hne).
Qed.

Lemma error_frame_raises_api_error_witness :
  let frame :=
    bytes_of "{'error':{'code':14,'http_code':503,'message':'transport is closing'}}" in
  let resp := Response.fresh 200 true frame in
  @anext identity_base (init "/watch" resp true)
  = (Raise (Etcd3APIError
              (EValue (JString (Utf8.lit "transport is closing")))
              (JInt 14) (JInt 503) None),
     (fst (init "/watch" resp true), Response.with_content resp [])).
Proof.
  cbv zeta.
  refine (@error_frame_raises_api_error identity_base
            (init "/watch" (Response.fresh 200 true _) true) _
            ResponseIter.init _ _ _
            [(Utf8.lit "code", JInt 14); (Utf8.lit "http_code", JInt 503);
             (Utf8.lit "message",
              JString (Utf8.lit "transport is closing"))]
            _ _ _ _ _).
  - vm_compute; reflexivity.
  - vm_compute; reflexivity.
  - vm_compute; reflexivity.
  - vm_compute; reflexivity.
  - discriminate.
Defined.

(** On a body that is exactly the two objects
    [{"result":{"x":1}}{"result":{"x":2}}], calling [__anext__] by hand
    returns the modeled form of [{x:1}], then that of [{x:2}], and then
    raises [StopAsyncIteration], the body fully read. *)
Theorem two_results_then_clean_end `{BaseClient}
        (method : string) (decode : bool) (resp : ClientResponse)
        (r1 r2 : Model) :
  closed resp = false ->
  content resp = two_results_body ->
  _modelizeResponseData method (payload_x 1) decode = Return r1 ->
  _modelizeResponseData method (payload_x 2) decode = Return r2 ->
  drive (init method resp decode)
  = ([r1; r2], Some StopAsyncIteration,
     (fst (init method resp decode), Response.with_content resp [])).
Proof.
  intros Hc Hcont H1 H2.
  set (o1 := bytes_of "{'result':{'x':1}}").
  set (o2 := bytes_of "{'result':{'x':2}}").
  assert (Hf1 : Frames.framed o1)
    by (apply closes_framed; vm_compute; reflexivity).
  assert (Hf2 : Frames.framed o2)
    by (apply closes_framed; vm_compute; reflexivity).
  assert (Hh1 : handle_frame (fst (init method resp decode)) o1 = Return r1).
  { rewrite <- H1.
    erewrite (handle_frame_payload _ o1 _ [(k_result, payload_x 1)]).
    - reflexivity.
    - vm_compute; reflexivity.
    - vm_compute; reflexivity.
    - vm_compute; reflexivity. }
  assert (Hh2 : handle_frame (fst (init method resp decode)) o2 = Return r2).
  { rewrite <- H2.
    erewrite (handle_frame_payload _ o2 _ [(k_result, payload_x 2)]).
    - reflexivity.
    - vm_compute; reflexivity.
    - vm_compute; reflexivity.
    - vm_compute; reflexivity. }
  set (h := fst (init method resp decode)) in *.
  unfold drive. cbn [snd init]. rewrite Hcont.
  change (length two_results_body) with 36%nat.
  change (init method resp decode) with (h, resp).
  rewrite (iterate_return anext _ (h, resp) r1
                          (h, Response.with_content resp o2)).
  2:{ rewrite (anext_frame (h, resp) o1 ResponseIter.init
                           (Response.with_content resp o2)).
      - cbn [fst]. rewrite Hh1. reflexivity.
      - apply (next_frame o1 o2 resp Hc); [|exact Hf1].
        rewrite Hcont. vm_compute; reflexivity. }
  rewrite (iterate_return anext _ _ r2 (h, Response.with_content resp [])).
  2:{ rewrite (anext_frame _ o2 ResponseIter.init
                           (Response.with_content resp [])).
      - cbn [fst]. rewrite Hh2. reflexivity.
      - apply (next_frame o2 [] (Response.with_content resp o2) Hc);
          [|exact Hf2].
        now rewrite app_nil_r. }
  rewrite (iterate_raise anext _ _ StopAsyncIteration
                         (h, Response.with_content resp [])).
  2:{ rewrite (anext_raise _ StopAsyncIteration ResponseIter.init
                           (Response.with_content resp [])).
      - reflexivity.
      - cbn [fst snd]. now rewrite next_exhausted. }
  reflexivity.
Qed.

Lemma two_results_then_clean_end_witness :
  let resp := Response.fresh 200 true two_results_body in
  @drive identity_base (init "/v3alpha/watch" resp true)
  = ([payload_x 1; payload_x 2], Some StopAsyncIteration,
     (fst (init "/v3alpha/watch" resp true),
      Response.with_content resp [])).
Proof.
  cbv zeta.
  apply (@two_results_then_clean_end
           identity_base "/v3alpha/watch" true
           (Response.fresh 200 true two_results_body)
           (payload_x 1) (payload_x 2)); reflexivity.
Defined.

(** C6: what the code does. [__aiter__] is declared [async def], so it
    returns a coroutine and not the handle. From Python 3.7 on the
    statement [async for r in handle] refuses that with a [TypeError]
    before the first [__anext__]: over the body
    [{"result":{"x":1}}{"result":{"x":2}}] no result is yielded and no byte
    is read. Where the interpreter still awaits the coroutine, and when
    [__anext__] is called by hand, the two modeled results come out and
    the calls end with [StopAsyncIteration]. *)
Lemma async_for_over_handle_raises_type_error :
  let resp := Response.fresh 200 true two_results_body in
  let s := init "/v3alpha/watch" resp true in
  let claimed := ([payload_x 1; payload_x 2], Some StopAsyncIteration,
                  (fst s, Response.with_content resp [])) in
  @async_for identity_base Python37_on s = ([], Some TypeError, s)
  /\ @async_for identity_base Python37_on s <> claimed
  /\ @async_for identity_base Python35_36 s = claimed
  /\ @drive identity_base s = claimed.
Proof.
  cbv zeta. split; [reflexivity|]. split; [discriminate|].
  split; vm_compute; reflexivity.
Qed.

(** C9. [close] only closes the response: the handle and its tokenizer
    are left as they are, whatever has or has not been read. A second
    [close] changes nothing, and however often [close] is called, a
    connection that was attached is torn down once. [close] has no
    exceptional outcome. *)
Theorem close_twice_is_close_once (s : state) :
  close (close s) = close s
  /\ fst (close s) = fst s
  /\ closed (snd (close s)) = true
  /\ forall n : nat,
       conn_closes (snd (Nat.iter (S n) close s))
       = (conn_closes (snd s) + (if connection (snd s) then 1 else 0))%nat.
Proof.
  destruct s as [self resp].
  split; [reflexivity|]. split; [reflexivity|]. split; [reflexivity|].
  intros n. induction n as [|n IH].
  - cbn. destruct (connection resp); lia.
  - change (Nat.iter (S (S n)) close (self, resp))
      with (close (Nat.iter (S n) close (self, resp))).
    destruct (Nat.iter (S n) close (self, resp)) as [self' resp'] eqn:E.
    assert (Hconn : connection resp' = false).
    { change (Nat.iter (S n) close (self, resp))
        with (close (Nat.iter n close (self, resp))) in E.
      destruct (Nat.iter n close (self, resp)).
      injection E as _ <-. reflexivity. }
    cbn in *. now rewrite Hconn.
Qed.

(** C10, as stated, does not hold. The byte [7] is no brace and comes
    back as a one-byte frame, but it is a complete JSON document: the
    parse succeeds with the integer 7, and it is the [.get] lookup on
    that integer which fails. *)
Lemma digit_frame_is_parsed :
  let b := "7"%byte in
  let rest := bytes_of "{'result':{}}" in
  let resp := Response.fresh 200 true (b :: rest) in
  b <> ResponseIter.open_brace /\ b <> ResponseIter.close_brace
  /\ ResponseIter.next ResponseIter.init resp
     = (Return [b], (ResponseIter.init, Response.with_content resp rest))
  /\ (exists text, Utf8.decode [b] = Some text
                   /\ Json.loads text = Json.Parsed (JInt 7))
  /\ fst (@anext identity_base (init "/watch" resp true))
     = Raise AttributeError.
Proof.
  cbv zeta. split; [discriminate|]. split; [discriminate|].
  split; [vm_compute; reflexivity|]. split.
  - eexists. split; [vm_compute; reflexivity|]. vm_compute; reflexivity.
  - vm_compute; reflexivity.
Qed.

(** C10, amended. When the next byte [b] is neither brace while nothing
    is pending and the counter is 0, [next] returns at once with the
    one-byte frame [b], leaving the rest unread. [__anext__] then yields
    no modeled result and raises neither a [StreamError] nor an
    [ApiError] but an untyped exception: [UnicodeDecodeError] when
    [b >= 0x80], [JSONDecodeError] when [b] is an ASCII byte other than a
    digit, and, when [b] is an ASCII digit, [AttributeError] from the
    [.get] lookup on the integer that the parse returned. *)
Theorem plain_byte_frame_fails_untyped `{BaseClient}
        (s : state) (b : byte) (rest : list byte) :
  closed (snd s) = false ->
  content (snd s) = b :: rest ->
  ResponseIter.buf (resp_iter (fst s)) = [] ->
  ResponseIter.bracket_flag (resp_iter (fst s)) = 0%Z ->
  b <> ResponseIter.open_brace -> b <> ResponseIter.close_brace ->
  let resp' := Response.with_content (snd s) rest in
  ResponseIter.next (resp_iter (fst s)) (snd s)
  = (Return [b], (ResponseIter.init, resp'))
  /\ anext s
     = (Raise (one_byte_exn b), (with_iter (fst s) ResponseIter.init, resp'))
  /\ is_Etcd3Exception (one_byte_exn b) = false.
Proof.
  intros Hc Hcont Hb Hf Ho Hcl resp'.
  assert (Hnext : ResponseIter.next (resp_iter (fst s)) (snd s)
                  = (Return [b], (ResponseIter.init, resp')))
    by (apply next_plain_byte; assumption).
  split; [exact Hnext|]. split.
  - rewrite (anext_frame s [b] ResponseIter.init resp' Hnext).
    now rewrite handle_frame_one_byte.
  - unfold one_byte_exn.
    destruct (Json.is_digit _); [reflexivity|].
    destruct (_ <? _); reflexivity.
Qed.

Lemma plain_byte_frame_fails_untyped_witness :
  let nl := "010"%byte in
  let rest := bytes_of "{'result':{}}" in
  let resp := Response.fresh 200 true (nl :: rest) in
  @anext identity_base (init "/watch" resp true)
  = (Raise JSONDecodeError,
     (fst (init "/watch" resp true), Response.with_content resp rest)).
Proof.
  cbv zeta.
  refine (proj1 (proj2 (@plain_byte_frame_fails_untyped
                          identity_base
                          (init "/watch"
                             (Response.fresh 200 true
                                ("010"%byte :: bytes_of "{'result':{}}"))
                             true)
                          "010"%byte (bytes_of "{'result':{}}")
                          _ _ _ _ _ _)));
    first [reflexivity | discriminate].
Defined.

End StreamHandleClaims.

(** ** The RPC call *)

Section CallRpc.

Import AioClient.

(** Request headers: the client's own headers take precedence; below
    them the caller's, with [user_agent] filled in when the caller gave
    none. *)
Lemma build_request_headers `{BaseClient} (self : t) (method : string)
      (data : json) (encode : bool) (kwargs : Kwargs) (rq : Request)
      (k : string) :
  build_request self method data encode kwargs = Return rq ->
  req_headers rq !! k
  = match headers self !! k with
    | Some v => Some v
    | None =>
      setdefault "user_agent" (user_agent self)
                 (default ∅ (kw_headers kwargs)) !! k
    end.
Proof.
  unfold build_request. intros E.
  assert (Hh : req_headers rq
               = update (setdefault "user_agent" (user_agent self)
                                    (default ∅ (kw_headers kwargs)))
                        (headers self)).
  { destruct encode.
    - destruct (_encodeRPCRequest method (or_empty data));
        [|discriminate].
      injection E as <-. reflexivity.
    - injection E as <-. reflexivity. }
  rewrite Hh. unfold update. rewrite lookup_union.
  destruct (headers self !! k), (setdefault _ _ _ !! k); reflexivity.
Qed.

(** Once the status is at least 400 and the body is a JSON object, the
    exception carries the body's top-level [error] and [code]. *)
Lemma raise_for_status_object (resp : ClientResponse) (text : pystr)
      (data : list (pystr * json)) :
  (400 <= status resp)%Z ->
  json_content_type resp = true -> closed resp = false ->
  body resp = None ->
  Response.strip (content resp) = content resp ->
  content resp <> [] ->
  Utf8.decode (content resp) = Some text ->
  Json.loads text = Json.Parsed (JObject data) ->
  exists resp',
    _raise_for_status resp
    = (Raise (Etcd3APIError (EValue (Py.dict_get k_error data))
                            (Py.dict_get k_code data)
                            (JInt (status resp)) (Some resp')), resp')
    /\ body resp' = Some (content resp) /\ content resp' = [].
Proof.
  intros Hs Hj Hc Hb Hstrip Hne Hd Hl.
  unfold _raise_for_status.
  destruct (Z.ltb_spec (status resp) 400) as [?|_]; [lia|].
  unfold Response.json, Response.read. rewrite Hb, Hc.
  cbn [json_content_type]. rewrite Hj. cbn [negb].
  rewrite Hstrip.
  destruct (content resp) as [|c0 cs] eqn:Hcont; [congruence|].
  rewrite Hd, Hl. eexists. split; [reflexivity|]. split; reflexivity.
Qed.

(** C1, as stated, does not hold. For the status 503 and the body
    [{"error":{"grpc_code":14,"http_code":503,"message":"transport is
    closing"}}] the exception has no code, since the body has no
    top-level [code], and its first argument is the whole [error]
    sub-document, not the message inside it. *)
Lemma nested_error_body_loses_code_and_message :
  let resp := Response.fresh 503 true transport_closing_body in
  let r := @call_rpc identity_base (client_answering resp ∅) "/kv/range"
                     JNull false true false no_kwargs in
  (exists rsp, result r
               = Raise (Etcd3APIError (EValue transport_closing_error)
                                      JNull (JInt 503) rsp))
  /\ forall rsp, result r
                 <> Raise (Etcd3APIError
                             (EValue (JString
                                        (Utf8.lit "transport is closing")))
                             (JInt 14) (JInt 503) rsp).
Proof.
  cbv zeta.
  assert (E : exists rsp,
             result (@call_rpc identity_base
                       (client_answering
                          (Response.fresh 503 true transport_closing_body)
                          ∅)
                       "/kv/range" JNull false true false no_kwargs)
             = Raise (Etcd3APIError (EValue transport_closing_error)
                                    JNull (JInt 503) rsp)).
  { eexists. vm_compute. reflexivity. }
  split; [exact E|].
  destruct E as [rsp E]. intros rsp'. rewrite E. discriminate.
Qed.

(** C1, amended. For every call of [call_rpc] whose HTTP response has
    status 503, a JSON content type and the body
    [{"error":{"grpc_code":14,"http_code":503,"message":"transport is
    closing"}}], [call_rpc] raises an [ApiError] whose HTTP status is 503,
    whose code is [None] and whose message argument is the body's whole
    [error] sub-document. *)
Theorem nested_error_body_raises `{BaseClient}
        (self : t) (method : string) (data : json)
        (stream encode raw : bool) (kwargs : Kwargs)
        (rq : Request) (resp : ClientResponse) :
  build_request self method data encode kwargs = Return rq ->
  session_post self rq = Return resp ->
  status resp = 503%Z ->
  json_content_type resp = true -> closed resp = false ->
  body resp = None ->
  content resp = transport_closing_body ->
  exists resp',
    result (call_rpc self method data stream encode raw kwargs)
    = Raise (Etcd3APIError (EValue transport_closing_error) JNull
                           (JInt 503) (Some resp')).
Proof.
  intros Hrq Hpost Hs Hj Hc Hb Hcont.
  assert (Hd : exists text,
             Utf8.decode transport_closing_body = Some text
             /\ Json.loads text
                = Json.Parsed (JObject [(k_error, transport_closing_error)])).
  { eexists. split; [vm_compute; reflexivity|]. vm_compute; reflexivity. }
  destruct Hd as (text & Hd & Hl).
  destruct (raise_for_status_object
              resp text [(k_error, transport_closing_error)])
    as (resp' & E & _); rewrite ?Hcont; try assumption.
  - lia.
  - vm_compute; reflexivity.
  - discriminate.
  - exists resp'. unfold call_rpc. rewrite Hrq.
    unfold exchange. rewrite Hpost, E, Hs. reflexivity.
Qed.

Lemma nested_error_body_raises_witness :
  exists resp',
    result (@call_rpc identity_base
              (client_answering
                 (Response.fresh 503 true transport_closing_body) ∅)
              "/kv/range" JNull false true false no_kwargs)
    = Raise (Etcd3APIError (EValue transport_closing_error) JNull
                           (JInt 503) (Some resp')).
Proof.
  refine (@nested_error_body_raises
            identity_base
            (client_answering
               (Response.fresh 503 true transport_closing_body) ∅)
            "/kv/range" JNull false true false no_kwargs
            _ (Response.fresh 503 true transport_closing_body)
            _ _ _ _ _ _ _); reflexivity.
Defined.

(** On a response that passed the status check, a stream call whose
    [_modelizeStreamResponse] raises an exception of the
    [Etcd3Exception] family closes the response and goes on to the last
    line of [call_rpc]: the exception is not raised again. *)
Lemma exchange_stream_failure `{BaseClient} (self : t) (method : string)
      (rq : Request) (resp : ClientResponse) (e : exn) :
  session_post self rq = Return resp ->
  (status resp < 400)%Z ->
  _modelizeStreamResponse self method resp = Raise e ->
  is_Etcd3Exception e = true ->
  exchange self method true false rq
  = {| sent := Some rq;
       response := Some (snd (modelize_body method (Response.close resp)));
       result := fst (modelize_body method (Response.close resp)) |}.
Proof.
  intros Hpost Hs Hm He. unfold exchange, _raise_for_status.
  rewrite Hpost. destruct (Z.ltb_spec (status resp) 400) as [_|?]; [|lia].
  rewrite Hm, He. now destruct (modelize_body _ _).
Qed.

(** C2: what the code does. The client's [_modelizeStreamResponse]
    raises [Etcd3Exception]; [call_rpc] closes the response, then falls
    through to the non-streamed path, whose read of the closed response
    fails in the transport. The caller gets that failure, not the
    exception that was raised. *)
Lemma stream_construction_error_is_swallowed :
  let resp := Response.fresh 200 true (bytes_of "{'result':{}}") in
  let boom := Etcd3Exception "boom" in
  let r := @call_rpc identity_base (client_failing_stream resp boom)
                     "/v3alpha/watch" JNull true true false no_kwargs in
  is_Etcd3Exception boom = true
  /\ response r = Some (Response.close resp)
  /\ result r = Raise ClientConnectionError
  /\ result r <> Raise boom.
Proof.
  cbv zeta.
  assert (E : result (@call_rpc identity_base
                        (client_failing_stream
                           (Response.fresh 200 true
                              (bytes_of "{'result':{}}"))
                           (Etcd3Exception "boom"))
                        "/v3alpha/watch" JNull true true false no_kwargs)
              = Raise ClientConnectionError)
    by (vm_compute; reflexivity).
  split; [reflexivity|]. split; [vm_compute; reflexivity|].
  split; [exact E|]. rewrite E. discriminate.
Qed.

(** C3: what the code does. The client carries the header
    [authorization: client-token]; the caller passes
    [authorization: caller-token]. The request goes out with the
    client's value. *)
Lemma caller_header_is_replaced_by_default :
  let resp := Response.fresh 200 true (bytes_of "{}") in
  let self := client_answering resp {["authorization" := "client-token"]} in
  let kwargs := with_headers {["authorization" := "caller-token"]} in
  let r := @call_rpc identity_base self "/kv/range" JNull false true false
                     kwargs in
  exists rq,
    sent r = Some rq
    /\ req_headers rq !! "authorization" = Some "client-token"
    /\ req_headers rq !! "user_agent" = Some "etcd3-py".
Proof.
  cbv zeta.
  set (self := client_answering _ _).
  set (kwargs := with_headers _).
  destruct (@build_request identity_base self "/kv/range" JNull true kwargs)
    as [rq|e] eqn:E; [|discriminate].
  exists rq. split.
  - unfold call_rpc. rewrite E. reflexivity.
  - split.
    + rewrite (@build_request_headers identity_base _ _ _ _ _ _ _ E).
      reflexivity.
    + rewrite (@build_request_headers identity_base _ _ _ _ _ _ _ E).
      reflexivity.
Qed.

End CallRpc.

(** * Further properties *)

(** ** The tokenizer, call by call *)

Section TokenizerCalls.

Import ResponseIter Frames.

(** What one run of the loop can do: a frame made of what was pending and
    a closing run of the input, with the tokenizer as new; or an exception
    that leaves every byte either pending or unread. *)
Lemma loop_inv (input : list byte) :
  forall (self : t) (resp : ClientResponse) o (self' : t)
         (resp' : ClientResponse),
    loop input self resp = (o, (self', resp')) ->
    resp' = Response.with_content resp (content resp')
    /\ match o with
       | Return f =>
         self' = init
         /\ exists consumed,
             consumed <> [] /\ f = buf self ++ consumed
             /\ input = consumed ++ content resp'
             /\ closes (bracket_flag self) consumed = true
       | Raise e =>
         buf self ++ input = buf self' ++ content resp'
         /\ ((e = StopAsyncIteration /\ buf self' = []
              /\ content resp' = [])
             \/ (e = Etcd3StreamError stream_decode_error (buf self') resp'
                 /\ buf self' <> []))
       end.
Proof.
  induction input as [|c rest IH]; intros self resp o self' resp' E.
  - cbn [loop] in E. destruct (buf self) as [|x b] eqn:Hb.
    + injection E as <- <- <-. split; [reflexivity|].
      rewrite Hb. split; [reflexivity|]. left. auto.
    + injection E as <- <- <-. split; [reflexivity|].
      rewrite Hb. split; [reflexivity|]. right. split; [reflexivity|].
      discriminate.
  - cbn [loop] in E.
    destruct (Z.eqb_spec (bump c (bracket_flag self)) 0) as [Hz|Hnz].
    + injection E as <- <- <-. split; [reflexivity|].
      split; [now rewrite Hz|].
      exists [c]. split; [discriminate|]. split; [reflexivity|].
      split; [reflexivity|]. cbn. now apply Z.eqb_eq.
    + destruct (Z.ltb_spec (bump c (bracket_flag self)) 0) as [Hneg|Hpos].
      * injection E as <- <- <-. split; [reflexivity|].
        cbn [buf content Response.with_content]. split.
        -- now rewrite <- app_assoc.
        -- right. split; [reflexivity|].
           intros H. destruct (buf self); discriminate.
      * apply IH in E as [Hr E]. split; [exact Hr|].
        destruct o as [f|e].
        -- destruct E as (-> & consumed & Hne & -> & Hin & Hcl).
           split; [reflexivity|]. cbn [buf bracket_flag] in *.
           exists (c :: consumed). split; [discriminate|].
           split; [now rewrite <- app_assoc|].
           split; [cbn; now rewrite <- Hin|].
           destruct consumed as [|c' cs]; [congruence|].
           change (closes (bracket_flag self) (c :: c' :: cs))
             with ((0 <? bump c (bracket_flag self))%Z
                   && closes (bump c (bracket_flag self)) (c' :: cs)).
           rewrite Hcl, andb_true_r. apply Z.ltb_lt. lia.
        -- cbn [buf bracket_flag] in E. destruct E as [Hacc Hcls].
           split; [|exact Hcls].
           rewrite <- Hacc, <- app_assoc. reflexivity.
Qed.

(** X1. One call of [next] on an open response loses and invents no
    byte. When it returns a frame, the frame is what was pending followed
    by at least one byte just read, the bytes after it are still unread
    and the tokenizer is back to its initial state. When it raises, every
    byte is either pending in [buf] or still unread, and the exception is
    [StopAsyncIteration] with nothing pending at the end of the body, or a
    [StreamError] that carries the pending bytes. *)
Theorem next_accounts_for_every_byte
        (self : t) (resp : ClientResponse) o (self' : t)
        (resp' : ClientResponse) :
  closed resp = false ->
  next self resp = (o, (self', resp')) ->
  match o with
  | Return frame =>
    self' = init
    /\ (length (buf self) < length frame)%nat
    /\ buf self ++ content resp = frame ++ content resp'
  | Raise e =>
    buf self ++ content resp = buf self' ++ content resp'
    /\ ((e = StopAsyncIteration /\ buf self' = [] /\ content resp' = [])
        \/ (e = Etcd3StreamError stream_decode_error (buf self') resp'
            /\ buf self' <> []))
  end.
Proof.
  intros Hc E. unfold next in E. rewrite Hc in E.
  apply loop_inv in E as [_ E]. destruct o as [frame|e]; [|exact E].
  destruct E as (-> & consumed & Hne & -> & Hin & _).
  split; [reflexivity|]. split.
  - rewrite length_app. destruct consumed; [congruence|simpl; lia].
  - now rewrite Hin, app_assoc.
Qed.

Lemma next_accounts_for_every_byte_witness :
  let resp := Response.fresh 200 true (bytes_of "{'a':{}}{'b':1}") in
  let resp' := Response.with_content resp (bytes_of "{'b':1}") in
  init = init
  /\ (length (buf init) < length (bytes_of "{'a':{}}"))%nat
  /\ buf init ++ content resp = bytes_of "{'a':{}}" ++ content resp'.
Proof.
  cbv zeta.
  refine (next_accounts_for_every_byte
            init (Response.fresh 200 true (bytes_of "{'a':{}}{'b':1}"))
            (Return (bytes_of "{'a':{}}")) init
            (Response.with_content
               (Response.fresh 200 true (bytes_of "{'a':{}}{'b':1}"))
               (bytes_of "{'b':1}")) _ _);
    vm_compute; reflexivity.
Defined.

(** X2. A frame returned by a fresh tokenizer is a prefix of the unread
    body, it has brace depth zero at its end and positive brace depth after
    each of its proper non-empty prefixes, and the bytes after it are left
    unread. *)
Theorem fresh_frame_is_framed
        (resp : ClientResponse) (frame : list byte) (st : t * ClientResponse) :
  closed resp = false ->
  next init resp = (Return frame, st) ->
  framed frame
  /\ exists rest, content resp = frame ++ rest
                  /\ st = (init, Response.with_content resp rest).
Proof.
  intros Hc E. destruct st as [self' resp'].
  unfold next in E. rewrite Hc in E.
  apply loop_inv in E as (Hr & -> & consumed & _ & -> & Hin & Hcl).
  cbn [buf bracket_flag init app] in *. split.
  - now apply closes_framed.
  - exists (content resp'). split; [exact Hin|]. now rewrite <- Hr.
Qed.

Lemma fresh_frame_is_framed_witness :
  let resp := Response.fresh 200 true (bytes_of "{'a':{}}{'b':1}") in
  framed (bytes_of "{'a':{}}")
  /\ exists rest, content resp = bytes_of "{'a':{}}" ++ rest
                  /\ (init, Response.with_content resp (bytes_of "{'b':1}"))
                     = (init, Response.with_content resp rest).
Proof.
  cbv zeta.
  refine (fresh_frame_is_framed
            (Response.fresh 200 true (bytes_of "{'a':{}}{'b':1}"))
            (bytes_of "{'a':{}}")
            (init, Response.with_content
                     (Response.fresh 200 true (bytes_of "{'a':{}}{'b':1}"))
                     (bytes_of "{'b':1}")) _ _);
    vm_compute; reflexivity.
Defined.

End TokenizerCalls.

(** ** The tokenizer, over a whole body *)

Section TokenizerBodies.

Import ResponseIter Frames.

Lemma closes_ends_with_close_brace (s : list byte) :
  forall flag, (0 < flag)%Z -> closes flag s = true ->
               exists mid, s = mid ++ [close_brace].
Proof.
  induction s as [|c s IH]; intros flag Hpos H; [discriminate|].
  destruct s as [|c' s'].
  - cbn in H. apply Z.eqb_eq in H. exists [].
    destruct (bump_cases c flag) as [[_ E]|[[-> _]|(_ & _ & E)]];
      [lia|reflexivity|lia].
  - change (closes flag (c :: c' :: s'))
      with ((0 <? bump c flag)%Z && closes (bump c flag) (c' :: s')) in H.
    apply andb_true_iff in H as [Hp H]. apply Z.ltb_lt in Hp.
    destruct (IH _ Hp H) as [mid ->]. now exists (c :: mid).
Qed.

(** X3. A frame returned by a fresh tokenizer is either one byte that is
    no brace, or a byte string that starts with an opening brace and ends
    with a closing brace. *)
Theorem fresh_frame_shape
        (resp : ClientResponse) (frame : list byte) (st : t * ClientResponse) :
  closed resp = false ->
  next init resp = (Return frame, st) ->
  (exists b, frame = [b] /\ b <> open_brace /\ b <> close_brace)
  \/ (exists mid, frame = open_brace :: mid ++ [close_brace]).
Proof.
  intros Hc E. destruct st as [self' resp'].
  unfold next in E. rewrite Hc in E.
  apply loop_inv in E as (_ & _ & consumed & _ & -> & _ & Hcl).
  cbn [buf bracket_flag init app] in *.
  destruct consumed as [|c s]; [discriminate|].
  destruct s as [|c' s'].
  - left. exists c. cbn in Hcl. apply Z.eqb_eq in Hcl.
    destruct (bump_cases c 0) as [[_ E]|[[_ E]|(Ho & Hcb & _)]];
      [lia|lia|auto].
  - right.
    change (closes 0 (c :: c' :: s'))
      with ((0 <? bump c 0)%Z && closes (bump c 0) (c' :: s')) in Hcl.
    apply andb_true_iff in Hcl as [Hp H]. apply Z.ltb_lt in Hp.
    destruct (closes_ends_with_close_brace _ _ Hp H) as [mid ->].
    exists mid.
    destruct (bump_cases c 0) as [[-> _]|[[_ E]|(_ & _ & E)]];
      [reflexivity|lia|lia].
Qed.

Lemma fresh_frame_shape_witness :
  (exists b, bytes_of "{'a':{}}" = [b]
             /\ b <> open_brace /\ b <> close_brace)
  \/ (exists mid, bytes_of "{'a':{}}" = open_brace :: mid ++ [close_brace]).
Proof.
  refine (fresh_frame_shape
            (Response.fresh 200 true (bytes_of "{'a':{}}{'b':1}"))
            (bytes_of "{'a':{}}")
            (init, Response.with_content
                     (Response.fresh 200 true (bytes_of "{'a':{}}{'b':1}"))
                     (bytes_of "{'b':1}")) _ _);
    vm_compute; reflexivity.
Defined.

(** Iterating [next] with more fuel than unread bytes: the loop ends on an
    exception, and nothing of the input is lost on the way. *)
Lemma iterate_next_inv (fuel : nat) :
  forall (self : t) (resp : ClientResponse),
    closed resp = false ->
    (length (content resp) < fuel)%nat ->
    exists frames e self' resp',
      iterate (fun st => next (fst st) (snd st)) fuel (self, resp)
      = (frames, Some e, (self', resp'))
      /\ (length frames <= length (content resp))%nat
      /\ buf self ++ content resp
         = concat frames ++ buf self' ++ content resp'
      /\ ((e = StopAsyncIteration /\ buf self' = [] /\ content resp' = [])
          \/ (e = Etcd3StreamError stream_decode_error (buf self') resp'
              /\ buf self' <> []))
      /\ (self = init -> Forall framed frames).
Proof.
  induction fuel as [|fuel IH]; intros self resp Hc Hfuel; [lia|].
  cbn [iterate fst snd].
  destruct (next self resp) as [o [self1 resp1]] eqn:E.
  unfold next in E. rewrite Hc in E.
  apply loop_inv in E as [Hr E]. destruct o as [f|e].
  - destruct E as (-> & consumed & Hne & -> & Hin & Hcl).
    assert (Hc1 : closed resp1 = false) by (rewrite Hr; exact Hc).
    assert (Hlen : (length (content resp1) < length (content resp))%nat).
    { rewrite Hin, length_app. destruct consumed; [congruence|simpl; lia]. }
    destruct (IH init resp1 Hc1) as (frames & e & self' & resp' & Hit
                                     & Hn & Hacc & Hcls & Hfr); [lia|].
    exists ((buf self ++ consumed) :: frames), e, self', resp'.
    rewrite Hit. split; [reflexivity|]. split; [simpl; lia|].
    split; [|split; [exact Hcls|]].
    + cbn [concat]. cbn [buf init app] in Hacc.
      rewrite Hin, <- !app_assoc, <- Hacc. reflexivity.
    + intros ->. constructor; [|now apply Hfr].
      cbn [buf init app]. now apply closes_framed.
  - exists [], e, self1, resp1. split; [reflexivity|].
    split; [simpl; lia|]. destruct E as [Hacc Hcls].
    split; [exact Hacc|]. split; [exact Hcls|]. constructor.
Qed.

(** X4. Iterating a tokenizer over an open response always comes to an
    end: with [StopAsyncIteration] when the body is read to its end and
    nothing is pending, or else with a [StreamError] that carries the
    pending bytes. There are at most as many frames as unread bytes. *)
Theorem drain_ends_with_stop_or_stream_error
        (self : t) (resp : ClientResponse) :
  closed resp = false ->
  exists frames e self' resp',
    drain (self, resp) = (frames, Some e, (self', resp'))
    /\ (length frames <= length (content resp))%nat
    /\ ((e = StopAsyncIteration /\ buf self' = [] /\ content resp' = [])
        \/ (e = Etcd3StreamError stream_decode_error (buf self') resp'
            /\ buf self' <> [])).
Proof.
  intros Hc. unfold drain. cbn [snd].
  destruct (iterate_next_inv (S (length (content resp))) self resp Hc)
    as (frames & e & self' & resp' & Hit & Hn & _ & Hcls & _); [lia|].
  exists frames, e, self', resp'. auto.
Qed.

Lemma drain_ends_with_stop_or_stream_error_witness :
  exists frames e self' resp',
    drain (init, Response.fresh 200 true (bytes_of "{'a':1}}{'b':2}"))
    = (frames, Some e, (self', resp'))
    /\ (length frames
        <= length (content (Response.fresh 200 true
                              (bytes_of "{'a':1}}{'b':2}"))))%nat
    /\ ((e = StopAsyncIteration /\ buf self' = [] /\ content resp' = [])
        \/ (e = Etcd3StreamError stream_decode_error (buf self') resp'
            /\ buf self' <> [])).
Proof.
  apply (drain_ends_with_stop_or_stream_error
           init (Response.fresh 200 true (bytes_of "{'a':1}}{'b':2}"))).
  reflexivity.
Defined.

(** X5. However the iteration of a fresh tokenizer ends, the body is
    accounted for byte by byte: it is the frames in order, then the bytes
    pending in [buf], then the bytes still unread. Every frame has brace
    depth zero at its end and positive depth after its proper non-empty
    prefixes. *)
Theorem drain_partitions_body
        (resp : ClientResponse) (frames : list (list byte)) (e : option exn)
        (self' : t) (resp' : ClientResponse) :
  closed resp = false ->
  drain (init, resp) = (frames, e, (self', resp')) ->
  content resp = concat frames ++ buf self' ++ content resp'
  /\ Forall framed frames.
Proof.
  intros Hc E. unfold drain in E. cbn [snd] in E.
  destruct (iterate_next_inv (S (length (content resp))) init resp Hc)
    as (frames0 & e0 & self0 & resp0 & Hit & _ & Hacc & _ & Hfr); [lia|].
  rewrite Hit in E. injection E as <- _ <- <-.
  split; [exact Hacc|]. now apply Hfr.
Qed.

Lemma drain_partitions_body_witness :
  let resp := Response.fresh 200 true (bytes_of "{'a':1}{'b':{}}{'c'") in
  content resp
  = concat [bytes_of "{'a':1}"; bytes_of "{'b':{}}"]
    ++ bytes_of "{'c'" ++ []
  /\ Forall framed [bytes_of "{'a':1}"; bytes_of "{'b':{}}"].
Proof.
  cbv zeta.
  refine (drain_partitions_body
            (Response.fresh 200 true (bytes_of "{'a':1}{'b':{}}{'c'"))
            [bytes_of "{'a':1}"; bytes_of "{'b':{}}"]
            (Some (Etcd3StreamError
                     stream_decode_error (bytes_of "{'c'")
                     (Response.with_content
                        (Response.fresh 200 true
                           (bytes_of "{'a':1}{'b':{}}{'c'")) [])))
            {| buf := bytes_of "{'c'"; bracket_flag := 1 |}
            (Response.with_content
               (Response.fresh 200 true (bytes_of "{'a':1}{'b':{}}{'c'"))
               []) _ _);
    vm_compute; reflexivity.
Defined.

(** X6. When the iteration of a fresh tokenizer ends cleanly, the frames
    it yielded, put end to end, are the whole body. *)
Theorem clean_end_frames_are_the_body
        (resp : ClientResponse) (frames : list (list byte))
        (st : t * ClientResponse) :
  closed resp = false ->
  drain (init, resp) = (frames, Some StopAsyncIteration, st) ->
  concat frames = content resp.
Proof.
  intros Hc E. unfold drain in E. cbn [snd] in E.
  destruct (iterate_next_inv (S (length (content resp))) init resp Hc)
    as (frames0 & e0 & self0 & resp0 & Hit & _ & Hacc & Hcls & _); [lia|].
  rewrite Hit in E. injection E as <- -> _.
  destruct Hcls as [(_ & Hb & Hcont)|[Habs _]]; [|discriminate].
  cbn [buf init app] in Hacc. rewrite Hacc, Hb, Hcont.
  now rewrite !app_nil_r.
Qed.

Lemma clean_end_frames_are_the_body_witness :
  concat [bytes_of "{'a':1}"; bytes_of " "; bytes_of "{'b':{}}"]
  = content (Response.fresh 200 true (bytes_of "{'a':1} {'b':{}}")).
Proof.
  refine (clean_end_frames_are_the_body
            (Response.fresh 200 true (bytes_of "{'a':1} {'b':{}}"))
            [bytes_of "{'a':1}"; bytes_of " "; bytes_of "{'b':{}}"]
            (init, Response.with_content
                     (Response.fresh 200 true (bytes_of "{'a':1} {'b':{}}"))
                     []) _ _);
    vm_compute; reflexivity.
Defined.

End TokenizerBodies.

(** ** The stream handle, over a whole body *)

Section StreamBodies.

Import ModelizedStreamResponse.

Lemma with_iter_fresh (h : t) :
  resp_iter h = ResponseIter.init -> with_iter h ResponseIter.init = h.
Proof. destruct h; cbn; now intros ->. Qed.

(** Iterating the handle over frames that the modeler accepts, followed
    by a tail [p], given what [__anext__] does on [p] alone. *)
Lemma iterate_anext_frames `{BaseClient} (h : t) (objs : list (list byte)) :
  forall (rs : list Model) (p : list byte) (fuel : nat)
         (resp : ClientResponse) (e : exn) (st : state),
    resp_iter h = ResponseIter.init ->
    Forall Frames.framed objs ->
    Forall2 (fun o r => handle_frame h o = Return r) objs rs ->
    closed resp = false ->
    content resp = concat objs ++ p ->
    (length objs < fuel)%nat ->
    anext (h, Response.with_content resp p) = (Raise e, st) ->
    iterate anext fuel (h, resp) = (rs, Some e, st).
Proof.
  induction objs as [|o objs IH];
    intros rs p fuel resp e st Hh Hf H2 Hc Hcont Hfuel Hp.
  - inversion H2; subst. destruct fuel as [|fuel]; [lia|].
    simpl in Hcont. rewrite <- Hcont, with_content_same in Hp.
    now rewrite (iterate_raise anext fuel (h, resp) e st Hp).
  - inversion H2 as [|? r ? rs' Hr H2']; subst.
    inversion Hf as [|? ? Ho Hf']; subst.
    destruct fuel as [|fuel]; [simpl in Hfuel; lia|].
    simpl in Hcont. rewrite <- app_assoc in Hcont.
    rewrite (iterate_return
               anext fuel (h, resp) r
               (h, Response.with_content resp (concat objs ++ p))).
    + rewrite (IH rs' p fuel _ e st); auto. simpl in Hfuel. lia.
    + rewrite (anext_frame (h, resp) o ResponseIter.init
                           (Response.with_content resp (concat objs ++ p))).
      * cbn [fst]. now rewrite Hr, with_iter_fresh.
      * cbn [fst snd]. rewrite Hh. now apply next_frame.
Qed.

(** X7. Over a body made of N frames, none of which is an error frame
    and each of which the modeler accepts, calling [__anext__] again and
    again on a handle with a fresh tokenizer returns the N modeled results
    in the order of the frames and then raises [StopAsyncIteration], the
    body read to its end. *)
Theorem repeated_anext_yields_each_modeled_frame `{BaseClient}
        (h : t) (resp : ClientResponse) (objs : list (list byte))
        (rs : list Model) :
  resp_iter h = ResponseIter.init ->
  closed resp = false ->
  content resp = concat objs ->
  Forall Frames.framed objs ->
  Forall2 (fun o r => handle_frame h o = Return r) objs rs ->
  drive (h, resp)
  = (rs, Some StopAsyncIteration, (h, Response.with_content resp [])).
Proof.
  intros Hh Hc Hcont Hf H2. unfold drive. cbn [snd].
  apply (iterate_anext_frames h objs rs []); auto.
  - now rewrite app_nil_r.
  - rewrite Hcont. pose proof (length_concat_framed objs Hf). lia.
  - rewrite (anext_raise _ StopAsyncIteration ResponseIter.init
                         (Response.with_content resp [])).
    + cbn [fst]. now rewrite with_iter_fresh.
    + cbn [fst snd]. rewrite Hh. now rewrite next_exhausted.
Qed.

Lemma repeated_anext_yields_each_modeled_frame_witness :
  let objs := [bytes_of "{'result':{'x':1}}"; bytes_of "{'y':[2,3]}";
               bytes_of "{'result':null}"] in
  let resp := Response.fresh 200 true (concat objs) in
  let h := fst (init "/v3alpha/watch" resp false) in
  @drive identity_base (h, resp)
  = ([payload_x 1;
      JObject [(Utf8.lit "y", JArray [JInt 2; JInt 3])];
      JNull],
     Some StopAsyncIteration, (h, Response.with_content resp [])).
Proof.
  cbv zeta.
  apply (@repeated_anext_yields_each_modeled_frame
           identity_base _ _
           [bytes_of "{'result':{'x':1}}"; bytes_of "{'y':[2,3]}";
            bytes_of "{'result':null}"]).
  - reflexivity.
  - reflexivity.
  - reflexivity.
  - repeat (constructor; [apply closes_framed; vm_compute; reflexivity|]).
    constructor.
  - repeat (constructor; [vm_compute; reflexivity|]). constructor.
Defined.

(** X8. Calling [__anext__] again and again on a handle with a fresh
    tokenizer stops at the first frame on which [__anext__] raises, be it
    an error frame, a frame that does not parse or one the modeler
    refuses: the results of the frames before it have been returned, the
    exception is the one of that frame, and the bytes after that frame are
    left unread in the response. *)
Theorem repeated_anext_stops_at_first_failing_frame `{BaseClient}
        (h : t) (resp : ClientResponse) (objs : list (list byte))
        (rs : list Model) (bad rest : list byte) (e : exn) :
  resp_iter h = ResponseIter.init ->
  closed resp = false ->
  content resp = concat objs ++ bad ++ rest ->
  Forall Frames.framed objs ->
  Forall2 (fun o r => handle_frame h o = Return r) objs rs ->
  Frames.framed bad ->
  handle_frame h bad = Raise e ->
  drive (h, resp)
  = (rs, Some e, (h, Response.with_content resp rest)).
Proof.
  intros Hh Hc Hcont Hf H2 Hbad He. unfold drive. cbn [snd].
  apply (iterate_anext_frames h objs rs (bad ++ rest)); auto.
  - rewrite Hcont, length_app.
    pose proof (length_concat_framed objs Hf). lia.
  - rewrite (anext_frame _ bad ResponseIter.init
                         (Response.with_content resp rest)).
    + cbn [fst]. now rewrite He, with_iter_fresh.
    + cbn [fst snd]. rewrite Hh.
      now apply (next_frame bad rest (Response.with_content resp _)).
Qed.

Lemma repeated_anext_stops_at_first_failing_frame_witness :
  let good := bytes_of "{'result':{'x':1}}" in
  let bad := bytes_of "{'error':{'code':14,'message':'gone'}}" in
  let rest := bytes_of "{'result':{'x':2}}" in
  let resp := Response.fresh 200 true (concat [good] ++ bad ++ rest) in
  let h := fst (init "/v3alpha/watch" resp true) in
  @drive identity_base (h, resp)
  = ([payload_x 1],
     Some (Etcd3APIError (EValue (JString (Utf8.lit "gone"))) (JInt 14)
                         JNull None),
     (h, Response.with_content resp rest)).
Proof.
  cbv zeta.
  apply (@repeated_anext_stops_at_first_failing_frame
           identity_base _ _ [bytes_of "{'result':{'x':1}}"] _
           (bytes_of "{'error':{'code':14,'message':'gone'}}")).
  - reflexivity.
  - reflexivity.
  - reflexivity.
  - repeat (constructor; [apply closes_framed; vm_compute; reflexivity|]).
    constructor.
  - repeat (constructor; [vm_compute; reflexivity|]). constructor.
  - apply closes_framed; vm_compute; reflexivity.
  - vm_compute; reflexivity.
Defined.

End StreamBodies.

(** ** Error statuses *)

Section ErrorStatus.

Import AioClient.

(** [json()] on an open response whose body was not read yet: the body is
    read to its end, then checked and parsed. *)
Lemma json_of_unread (resp : ClientResponse) :
  closed resp = false -> body resp = None ->
  Response.json resp
  = (if negb (json_content_type resp) then Raise ContentTypeError
     else match Response.strip (content resp) with
          | [] => Return JNull
          | stripped =>
            match Utf8.decode stripped with
            | None => Raise UnicodeDecodeError
            | Some text =>
              match Json.loads text with
              | Json.Parsed v => Return v
              | Json.DecodeError => Raise JSONDecodeError
              | Json.TooDeep => Raise RecursionError
              end
            end
          end,
     snd (Response.read resp)).
Proof.
  intros Hc Hb. unfold Response.json, Response.read. rewrite Hb, Hc.
  cbn [json_content_type snd].
  destruct (negb (json_content_type resp)); [reflexivity|].
  destruct (Response.strip (content resp)); [reflexivity|].
  destruct (Utf8.decode _); [|reflexivity].
  destruct (Json.loads _); reflexivity.
Qed.

Lemma read_of_unread (resp : ClientResponse) :
  closed resp = false -> body resp = None ->
  content (snd (Response.read resp)) = []
  /\ body (snd (Response.read resp)) = Some (content resp)
  /\ closed (snd (Response.read resp)) = false.
Proof.
  intros Hc Hb. unfold Response.read. rewrite Hb, Hc. auto.
Qed.

(** [_raise_for_status] never returns on a status of 400 or more. *)
Lemma raise_for_status_raises (resp : ClientResponse) :
  (400 <= status resp)%Z ->
  exists e resp',
    _raise_for_status resp = (Raise e, resp')
    /\ (e = AttributeError
        \/ exists err code,
            e = Etcd3APIError err code (JInt (status resp)) (Some resp')).
Proof.
  intros Hs. unfold _raise_for_status.
  destruct (Z.ltb_spec (status resp) 400) as [?|_]; [lia|].
  destruct (Response.json resp) as [[v|e] resp'].
  - destruct v; eexists _, _; (split; [reflexivity|]);
      first [left; reflexivity | right; eexists _, _; reflexivity].
  - eexists _, _. split; [reflexivity|]. right. eexists _, _. reflexivity.
Qed.

(** X9. Whatever the flags [stream] and [raw], a call whose response has
    a status of 400 or more returns nothing: it raises, and the exception
    is an [ApiError] carrying that status, or the [AttributeError] of a
    body that is JSON but no object. *)
Theorem error_status_never_returns `{BaseClient}
        (self : t) (method : string) (data : json)
        (stream encode raw : bool) (kwargs : Kwargs)
        (rq : Request) (resp : ClientResponse) :
  build_request self method data encode kwargs = Return rq ->
  session_post self rq = Return resp ->
  (400 <= status resp)%Z ->
  exists e,
    result (call_rpc self method data stream encode raw kwargs) = Raise e
    /\ (e = AttributeError
        \/ exists err code r,
            e = Etcd3APIError err code (JInt (status resp)) r).
Proof.
  intros Hrq Hpost Hs.
  destruct (raise_for_status_raises resp Hs) as (e & resp' & E & Hcls).
  exists e. unfold call_rpc. rewrite Hrq. unfold exchange.
  rewrite Hpost, E. split; [reflexivity|].
  destruct Hcls as [->|(err & code & ->)]; eauto 6.
Qed.

Lemma error_status_never_returns_witness :
  exists e,
    result (@call_rpc identity_base
              (client_answering
                 (Response.fresh 404 false (bytes_of "Not Found")) ∅)
              "/kv/range" JNull true true true no_kwargs) = Raise e
    /\ (e = AttributeError
        \/ exists err code r, e = Etcd3APIError err code (JInt 404) r).
Proof.
  refine (@error_status_never_returns
            identity_base
            (client_answering
               (Response.fresh 404 false (bytes_of "Not Found")) ∅)
            "/kv/range" JNull true true true no_kwargs _
            (Response.fresh 404 false (bytes_of "Not Found")) _ _ _).
  - reflexivity.
  - reflexivity.
  - vm_compute. discriminate.
Defined.

(** X10. When the body of an error response cannot be taken as JSON (the
    content type is not JSON, the bytes are not UTF-8, or the text does
    not parse), the [ApiError] has code 2 and the response's status, and
    its first argument is the response's content stream, which by then
    has been read to its end: the body's bytes are in the response's
    cache, not in the exception's first argument. *)
Theorem unparsed_error_body_gives_code_2 (resp : ClientResponse) :
  (400 <= status resp)%Z ->
  closed resp = false -> body resp = None ->
  json_content_type resp = false
  \/ (Response.strip (content resp) <> []
      /\ (Utf8.decode (Response.strip (content resp)) = None
          \/ exists text,
              Utf8.decode (Response.strip (content resp)) = Some text
              /\ Json.loads text = Json.DecodeError)) ->
  let resp' := snd (Response.read resp) in
  _raise_for_status resp
  = (Raise (Etcd3APIError (EContent []) (JInt 2) (JInt (status resp))
                          (Some resp')), resp')
  /\ body resp' = Some (content resp).
Proof.
  intros Hs Hc Hb Hbad resp'. subst resp'.
  destruct (read_of_unread resp Hc Hb) as (Hcont' & Hbody' & _).
  split; [|exact Hbody'].
  unfold _raise_for_status.
  destruct (Z.ltb_spec (status resp) 400) as [?|_]; [lia|].
  rewrite (json_of_unread resp Hc Hb).
  destruct Hbad as [Hj|(Hne & Hbad)].
  - rewrite Hj. cbn [negb]. now rewrite Hcont'.
  - destruct (negb (json_content_type resp)); [now rewrite Hcont'|].
    destruct (Response.strip (content resp)) as [|x xs] eqn:Hst;
      [congruence|].
    destruct Hbad as [->|(text & -> & ->)]; now rewrite Hcont'.
Qed.

Lemma unparsed_error_body_gives_code_2_witness :
  let resp := Response.fresh 502 false (bytes_of "<html>Bad Gateway</html>") in
  let resp' := snd (Response.read resp) in
  _raise_for_status resp
  = (Raise (Etcd3APIError (EContent []) (JInt 2) (JInt 502) (Some resp')),
     resp')
  /\ body resp' = Some (bytes_of "<html>Bad Gateway</html>").
Proof.
  cbv zeta.
  apply (unparsed_error_body_gives_code_2
           (Response.fresh 502 false (bytes_of "<html>Bad Gateway</html>"))).
  - vm_compute. discriminate.
  - reflexivity.
  - reflexivity.
  - left. reflexivity.
Defined.

(** X11. An error response whose body is blank, or is JSON but not an
    object (an array, a string, a number, [null]), does not give an
    [ApiError]: the lookup of [error] on the decoded value fails and
    [AttributeError] escapes from [_raise_for_status]. *)
Theorem non_object_error_body_raises_attribute_error
        (resp : ClientResponse) :
  (400 <= status resp)%Z ->
  closed resp = false -> body resp = None ->
  json_content_type resp = true ->
  Response.strip (content resp) = []
  \/ (exists text v,
         Utf8.decode (Response.strip (content resp)) = Some text
         /\ Json.loads text = Json.Parsed v
         /\ forall d, v <> JObject d) ->
  _raise_for_status resp = (Raise AttributeError, snd (Response.read resp)).
Proof.
  intros Hs Hc Hb Hj Hv. unfold _raise_for_status.
  destruct (Z.ltb_spec (status resp) 400) as [?|_]; [lia|].
  rewrite (json_of_unread resp Hc Hb), Hj. cbn [negb].
  destruct Hv as [->|(text & v & Hd & Hl & Hno)]; [reflexivity|].
  destruct (Response.strip (content resp)) as [|x xs] eqn:Hst.
  - reflexivity.
  - rewrite Hd, Hl. destruct v; try reflexivity.
    exfalso. now apply (Hno d).
Qed.

Lemma non_object_error_body_raises_attribute_error_witness :
  let resp := Response.fresh 500 true (bytes_of "['boom']") in
  _raise_for_status resp = (Raise AttributeError, snd (Response.read resp)).
Proof.
  cbv zeta.
  apply (non_object_error_body_raises_attribute_error
           (Response.fresh 500 true (bytes_of "['boom']"))).
  - vm_compute. discriminate.
  - reflexivity.
  - reflexivity.
  - reflexivity.
  - right. eexists _, _. split; [vm_compute; reflexivity|].
    split; [vm_compute; reflexivity|]. discriminate.
Defined.

(** X12. An error response whose body is a JSON object gives an
    [ApiError] whose first argument and code are the values of the body's
    top-level keys [error] and [code], [None] for a key that is absent,
    and whose status is the response's; white space around the body is
    ignored. *)
Theorem object_error_body_gives_its_error_and_code
        (resp : ClientResponse) (text : pystr)
        (data : list (pystr * json)) :
  (400 <= status resp)%Z ->
  closed resp = false -> body resp = None ->
  json_content_type resp = true ->
  Response.strip (content resp) <> [] ->
  Utf8.decode (Response.strip (content resp)) = Some text ->
  Json.loads text = Json.Parsed (JObject data) ->
  let resp' := snd (Response.read resp) in
  _raise_for_status resp
  = (Raise (Etcd3APIError (EValue (Py.dict_get k_error data))
                          (Py.dict_get k_code data)
                          (JInt (status resp)) (Some resp')), resp').
Proof.
  intros Hs Hc Hb Hj Hne Hd Hl resp'. unfold _raise_for_status.
  destruct (Z.ltb_spec (status resp) 400) as [?|_]; [lia|].
  rewrite (json_of_unread resp Hc Hb), Hj. cbn [negb].
  destruct (Response.strip (content resp)) as [|x xs] eqn:Hst;
    [congruence|].
  now rewrite Hd, Hl.
Qed.

Lemma object_error_body_gives_its_error_and_code_witness :
  let resp :=
    Response.fresh 400 true
      (bytes_of " {'error':'etcdserver: key not found','code':5} ") in
  let resp' := snd (Response.read resp) in
  _raise_for_status resp
  = (Raise (Etcd3APIError
              (EValue (JString (Utf8.lit "etcdserver: key not found")))
              (JInt 5) (JInt 400) (Some resp')), resp').
Proof.
  cbv zeta.
  refine (object_error_body_gives_its_error_and_code
            (Response.fresh 400 true
               (bytes_of " {'error':'etcdserver: key not found','code':5} "))
            _ [(k_error, JString (Utf8.lit "etcdserver: key not found"));
               (k_code, JInt 5)] _ _ _ _ _ _ _).
  - vm_compute. discriminate.
  - reflexivity.
  - reflexivity.
  - reflexivity.
  - vm_compute. discriminate.
  - vm_compute. reflexivity.
  - vm_compute. reflexivity.
Defined.

End ErrorStatus.

(** ** Successful statuses and the request *)

Section CallPaths.

Import AioClient.

Lemma raise_for_status_passes (resp : ClientResponse) :
  (status resp < 400)%Z -> _raise_for_status resp = (Return tt, resp).
Proof.
  intros Hs. unfold _raise_for_status.
  destruct (Z.ltb_spec (status resp) 400) as [_|?]; [reflexivity|lia].
Qed.

(** X13. With [raw] set and a status below 400, [call_rpc] returns the
    response as the session delivered it: its body is not read and it is
    not closed, and [stream] makes no difference. *)
Theorem raw_call_returns_untouched_response `{BaseClient}
        (self : t) (method : string) (data : json)
        (stream encode : bool) (kwargs : Kwargs)
        (rq : Request) (resp : ClientResponse) :
  build_request self method data encode kwargs = Return rq ->
  session_post self rq = Return resp ->
  (status resp < 400)%Z ->
  call_rpc self method data stream encode true kwargs
  = {| sent := Some rq; response := Some resp;
       result := Return RawResponse |}.
Proof.
  intros Hrq Hpost Hs. unfold call_rpc. rewrite Hrq. unfold exchange.
  now rewrite Hpost, (raise_for_status_passes resp Hs).
Qed.

Lemma raw_call_returns_untouched_response_witness :
  let resp := Response.fresh 200 true two_results_body in
  exists rq,
    @call_rpc identity_base (client_answering resp ∅) "/v3alpha/watch"
              JNull true true true no_kwargs
    = {| sent := Some rq; response := Some resp;
         result := Return RawResponse |}.
Proof.
  cbv zeta. eexists.
  refine (@raw_call_returns_untouched_response
            identity_base
            (client_answering (Response.fresh 200 true two_results_body) ∅)
            "/v3alpha/watch" JNull true true no_kwargs _
            (Response.fresh 200 true two_results_body) _ _ _).
  - reflexivity.
  - reflexivity.
  - reflexivity.
Defined.

(** X14. A stream call on a client with the class's own
    [_modelizeStreamResponse] and a status below 400 returns a handle
    with a fresh tokenizer and decoding on, over a response whose body is
    still unread. Calling [__anext__] on that handle again and again,
    over a body of N frames that the modeler accepts, returns the N
    results in order and then raises [StopAsyncIteration]. *)
Theorem stream_call_then_repeated_anext `{BaseClient}
        (self : t) (method : string) (data : json) (encode : bool)
        (kwargs : Kwargs) (rq : Request) (resp : ClientResponse)
        (objs : list (list byte)) (rs : list Model) :
  build_request self method data encode kwargs = Return rq ->
  session_post self rq = Return resp ->
  _modelizeStreamResponse self = own_modelizeStreamResponse ->
  (status resp < 400)%Z ->
  closed resp = false ->
  content resp = concat objs ->
  Forall Frames.framed objs ->
  let h := fst (ModelizedStreamResponse.init method resp true) in
  Forall2 (fun o r => ModelizedStreamResponse.handle_frame h o = Return r)
          objs rs ->
  call_rpc self method data true encode false kwargs
  = {| sent := Some rq; response := Some resp;
       result := Return (StreamHandle h) |}
  /\ ModelizedStreamResponse.drive (h, resp)
     = (rs, Some StopAsyncIteration, (h, Response.with_content resp [])).
Proof.
  intros Hrq Hpost Hown Hs Hc Hcont Hf h H2. split.
  - unfold call_rpc. rewrite Hrq. unfold exchange.
    rewrite Hpost, (raise_for_status_passes resp Hs), Hown. reflexivity.
  - unfold ModelizedStreamResponse.drive. cbn [snd].
    apply (iterate_anext_frames h objs rs []); auto.
    + now rewrite app_nil_r.
    + rewrite Hcont. pose proof (length_concat_framed objs Hf). lia.
    + rewrite (anext_raise _ StopAsyncIteration ResponseIter.init
                           (Response.with_content resp [])).
      * reflexivity.
      * cbn [fst snd]. now rewrite next_exhausted.
Qed.

Lemma stream_call_then_repeated_anext_witness :
  let resp := Response.fresh 200 true two_results_body in
  let h := fst (ModelizedStreamResponse.init "/v3alpha/watch" resp true) in
  (exists rq,
      @call_rpc identity_base (client_answering resp ∅) "/v3alpha/watch"
                JNull true true false no_kwargs
      = {| sent := Some rq; response := Some resp;
           result := Return (StreamHandle h) |})
  /\ @ModelizedStreamResponse.drive identity_base (h, resp)
     = ([payload_x 1; payload_x 2], Some StopAsyncIteration,
        (h, Response.with_content resp [])).
Proof.
  cbv zeta.
  destruct (@stream_call_then_repeated_anext
              identity_base
              (client_answering (Response.fresh 200 true two_results_body) ∅)
              "/v3alpha/watch" JNull true no_kwargs
              {| req_url := "/v3alpha/watch"; req_json := JObject [];
                 req_timeout := None;
                 req_headers := {["user_agent" := "etcd3-py"]} |}
              (Response.fresh 200 true two_results_body)
              [bytes_of "{'result':{'x':1}}"; bytes_of "{'result':{'x':2}}"]
              [payload_x 1; payload_x 2]) as [E1 E2].
  - reflexivity.
  - reflexivity.
  - reflexivity.
  - reflexivity.
  - reflexivity.
  - reflexivity.
  - repeat (constructor; [apply closes_framed; vm_compute; reflexivity|]).
    constructor.
  - repeat (constructor; [vm_compute; reflexivity|]). constructor.
  - split; [eexists; exact E1|exact E2].
Defined.

(** X15. A call that is neither raw nor streamed, on a status below 400
    and a JSON body, hands the decoded body to the modeler with decoding
    on and returns or raises what the modeler does. The body is not
    looked into: a document with an [error] key is modeled like any
    other. *)
Theorem plain_call_models_the_body `{BaseClient}
        (self : t) (method : string) (data : json) (encode : bool)
        (kwargs : Kwargs) (rq : Request) (resp : ClientResponse)
        (text : pystr) (v : json) :
  build_request self method data encode kwargs = Return rq ->
  session_post self rq = Return resp ->
  (status resp < 400)%Z ->
  closed resp = false -> body resp = None ->
  json_content_type resp = true ->
  Response.strip (content resp) <> [] ->
  Utf8.decode (Response.strip (content resp)) = Some text ->
  Json.loads text = Json.Parsed v ->
  call_rpc self method data false encode false kwargs
  = {| sent := Some rq;
       response := Some (snd (Response.read resp));
       result := match _modelizeResponseData method v true with
                 | Return m => Return (Modeled m)
                 | Raise e => Raise e
                 end |}.
Proof.
  intros Hrq Hpost Hs Hc Hb Hj Hne Hd Hl.
  unfold call_rpc. rewrite Hrq. unfold exchange.
  rewrite Hpost, (raise_for_status_passes resp Hs).
  unfold modelize_body. rewrite (json_of_unread resp Hc Hb), Hj.
  cbn [negb].
  destruct (Response.strip (content resp)) as [|x xs] eqn:Hst;
    [congruence|].
  now rewrite Hd, Hl.
Qed.

Lemma plain_call_models_the_body_witness :
  let resp := Response.fresh 200 true (bytes_of "{'error':'x','code':3}") in
  exists rq,
    @call_rpc identity_base (client_answering resp ∅) "/kv/range"
              JNull false true false no_kwargs
    = {| sent := Some rq;
         response := Some (snd (Response.read resp));
         result := Return (@Modeled identity_base
                             (JObject [(k_error, JString (Utf8.lit "x"));
                                       (k_code, JInt 3)])) |}.
Proof.
  cbv zeta. eexists.
  refine (@plain_call_models_the_body
            identity_base
            (client_answering
               (Response.fresh 200 true (bytes_of "{'error':'x','code':3}"))
               ∅)
            "/kv/range" JNull true no_kwargs _
            (Response.fresh 200 true (bytes_of "{'error':'x','code':3}"))
            _ (JObject [(k_error, JString (Utf8.lit "x")); (k_code, JInt 3)])
            _ _ _ _ _ _ _ _ _).
  - reflexivity.
  - reflexivity.
  - reflexivity.
  - reflexivity.
  - reflexivity.
  - reflexivity.
  - vm_compute. discriminate.
  - vm_compute. reflexivity.
  - vm_compute. reflexivity.
Defined.

(** X16. Every request that goes out carries all of the client's
    headers with the client's values and a [user_agent] header; a header
    of the caller's under a key the client does not use goes out as the
    caller gave it. *)
Theorem request_headers_invariants `{BaseClient}
        (self : t) (method : string) (data : json) (encode : bool)
        (kwargs : Kwargs) (rq : Request) :
  build_request self method data encode kwargs = Return rq ->
  headers self ⊆ req_headers rq
  /\ is_Some (req_headers rq !! "user_agent")
  /\ forall (h : gmap string string) (k v : string),
       kw_headers kwargs = Some h -> h !! k = Some v ->
       headers self !! k = None ->
       req_headers rq !! k = Some v.
Proof.
  intros E.
  pose proof (fun k => build_request_headers self method data encode
                                             kwargs rq k E) as Hk.
  split; [|split].
  - apply map_subseteq_spec. intros k v Hv. now rewrite Hk, Hv.
  - rewrite Hk. destruct (headers self !! "user_agent"); [eauto|].
    unfold setdefault.
    destruct (default ∅ (kw_headers kwargs) !! "user_agent") eqn:Hu.
    + rewrite Hu. eauto.
    + rewrite lookup_insert_eq. eauto.
  - intros h k v Hh Hv Hnone. rewrite Hk, Hnone, Hh.
    unfold setdefault. simpl.
    destruct (h !! "user_agent") eqn:Hu; [exact Hv|].
    destruct (decide (k = "user_agent")) as [->|Hne]; [congruence|].
    now rewrite lookup_insert_ne.
Qed.

Lemma request_headers_invariants_witness :
  let self :=
    client_answering (Response.fresh 200 true (bytes_of "{}"))
                     {["authorization" := "client-token"]} in
  let kwargs := with_headers {["x-trace" := "abc"]} in
  let rq := {| req_url := "/kv/range"; req_json := JObject [];
               req_timeout := None;
               req_headers :=
                 update (setdefault "user_agent" "etcd3-py"
                                    {["x-trace" := "abc"]})
                        {["authorization" := "client-token"]} |} in
  headers self ⊆ req_headers rq
  /\ is_Some (req_headers rq !! "user_agent")
  /\ forall (h : gmap string string) (k v : string),
       kw_headers kwargs = Some h ->
       h !! k = Some v -> headers self !! k = None ->
       req_headers rq !! k = Some v.
Proof.
  cbv zeta.
  refine (@request_headers_invariants
            identity_base
            (client_answering (Response.fresh 200 true (bytes_of "{}"))
                              {["authorization" := "client-token"]})
            "/kv/range" JNull true (with_headers {["x-trace" := "abc"]})
            _ _).
  reflexivity.
Defined.

Lemma exchange_sent `{BaseClient} (self : t) (method : string)
      (stream raw : bool) (rq : Request) :
  sent (exchange self method stream raw rq) = Some rq.
Proof.
  unfold exchange. destruct (session_post self rq) as [resp|e];
    [|reflexivity].
  destruct (_raise_for_status resp) as [[[]|e] resp1]; [|reflexivity].
  destruct raw; [reflexivity|].
  destruct stream.
  - destruct (_modelizeStreamResponse self method resp1) as [h|e];
      [reflexivity|].
    destruct (is_Etcd3Exception e); [|reflexivity].
    now destruct (modelize_body method (Response.close resp1)).
  - now destruct (modelize_body method resp1).
Qed.

(** X17. The JSON body of the request that [call_rpc] hands to the
    session is [d or {}], where [d] is [data] itself when [encode] is off
    and what the request encoder returned for [data or {}] when [encode]
    is on: a truthy payload goes out as it is, a falsy one as [{}]. *)
Theorem posted_body_is_payload_or_empty `{BaseClient}
        (self : t) (method : string) (data : json)
        (stream encode raw : bool) (kwargs : Kwargs) (rq : Request) :
  sent (call_rpc self method data stream encode raw kwargs) = Some rq ->
  exists d,
    (if encode
     then _encodeRPCRequest method
                            (if Py.truthy data then data else JObject [])
          = Return d
     else d = data)
    /\ req_json rq = (if Py.truthy d then d else JObject []).
Proof.
  unfold call_rpc. intros E.
  destruct (build_request self method data encode kwargs) as [rq0|e] eqn:Hb;
    [|discriminate].
  rewrite exchange_sent in E. injection E as ->.
  unfold build_request, or_empty in Hb. destruct encode.
  - destruct (_encodeRPCRequest method _) as [d|e]; [|discriminate].
    exists d. injection Hb as <-. split; reflexivity.
  - exists data. injection Hb as <-. split; [reflexivity|].
    cbn [req_json]. destruct (Py.truthy data) eqn:Ht; [now rewrite Ht|].
    reflexivity.
Qed.

Lemma posted_body_is_payload_or_empty_witness :
  let key := JObject [(Utf8.lit "key", JString (Utf8.lit "Zm9v"))] in
  let rq := {| req_url := "/kv/range"; req_json := key;
               req_timeout := None;
               req_headers := update (setdefault "user_agent" "etcd3-py" ∅)
                                     ∅ |} in
  exists d,
    @_encodeRPCRequest identity_base "/kv/range"
                       (if Py.truthy key then key else JObject [])
    = Return d
    /\ req_json rq = (if Py.truthy d then d else JObject []).
Proof.
  cbv zeta.
  refine (@posted_body_is_payload_or_empty
            identity_base
            (client_answering (Response.fresh 200 true (bytes_of "{}")) ∅)
            "/kv/range"
            (JObject [(Utf8.lit "key", JString (Utf8.lit "Zm9v"))])
            false true false no_kwargs _ _).
  reflexivity.
Defined.

(** X18. When the request encoder raises, nothing is sent: [call_rpc]
    raises the encoder's exception without a request having gone to the
    session. *)
Theorem encoder_failure_sends_nothing `{BaseClient}
        (self : t) (method : string) (data : json) (stream raw : bool)
        (kwargs : Kwargs) (e : exn) :
  _encodeRPCRequest method (or_empty data) = Raise e ->
  call_rpc self method data stream true raw kwargs
  = {| sent := None; response := None; result := Raise e |}.
Proof.
  intros E. unfold call_rpc, build_request. now rewrite E.
Qed.

Lemma encoder_failure_sends_nothing_witness :
  @call_rpc refusing_base
            (client_answering (Response.fresh 200 true (bytes_of "{}")) ∅)
            "/kv/nonesuch" JNull false true false no_kwargs
  = {| sent := None; response := None;
       result := Raise (OtherError "KeyError") |}.
Proof.
  apply (@encoder_failure_sends_nothing refusing_base).
  reflexivity.
Defined.

End CallPaths.
